(** * The document transformation pipeline of the main-content scraper

    A shallow embedding of

      - [src/utils/crawl_transformer_utils.py]   (class [CrawlTransformerUtils])
      - [src/transformers/crawl_transformers.py] (class [CrawlTransformers])
      - [src/transformers/crawl_transformers_main_content.py]
                                                 (class [CrawlTransformersMainContent])
      - [src/core/mc_scraper_service.py]         (class [MCScraperService])

    Python strings are [string]s whose characters are code points below 256.
    Python exceptions are values of [exn]; a call that can raise returns
    a [result].  The third-party packages the program calls (bs4's parser
    and serialiser, soupsieve, html2text, urllib, tiktoken, lxml, the
    chat model) are interfaces: type classes whose methods the embedding
    calls and about which nothing is assumed. *)

From Stdlib Require Import ZArith List String Ascii Bool Lia.
From stdpp Require Import base gmap strings list fin_maps.
From Equations Require Import Equations.
Import ListNotations.
Open Scope string_scope.
Set Warnings "-register-all".

(** ** Python values and exceptions *)

Module Py.

(** A value that is either [None] or a [str]. *)
Inductive pyval :=
| PyNone
| PyStr (s : string).

(** Python truthiness: [None] and the empty string are falsy. *)
Definition truthy (v : pyval) : bool :=
  match v with
  | PyNone => false
  | PyStr s => negb (s =? "")
  end.

Inductive exn :=
| KeyError (key : string)
| ValueError (msg : string)
| TypeError (msg : string)
| LibraryError (origin : string)
| Wrapped (kind prefix : string) (cause : exn).

Inductive result (A : Type) :=
| Ok (a : A)
| Raise (e : exn).
Arguments Ok {A} a.
Arguments Raise {A} e.

Definition bind {A B} (r : result A) (k : A -> result B) : result B :=
  match r with
  | Ok a => k a
  | Raise e => Raise e
  end.

Definition is_ok {A} (r : result A) : bool :=
  match r with Ok _ => true | Raise _ => false end.

(** [d[key]] on a field that may be missing. *)
Definition getitem {A} (key : string) (field : option A) : result A :=
  match field with
  | Some a => Ok a
  | None => Raise (KeyError key)
  end.

(** [s.startswith(p)] and [s.startswith((p1, p2, ...))]. *)
Definition startswith (s p : string) : bool := String.prefix p s.
Definition startswith_any (s : string) (ps : list string) : bool :=
  existsb (startswith s) ps.

(** [c in chars]. *)
Definition in_chars (chars : string) (c : ascii) : bool :=
  existsb (Ascii.eqb c) (list_ascii_of_string chars).

(** [str.isspace] on one character: TAB..CR, FS..US, space, NEL, NBSP. *)
Definition isspace (c : ascii) : bool :=
  let n := nat_of_ascii c in
  (Nat.leb 9 n && Nat.leb n 13) || (Nat.leb 28 n && Nat.leb n 32)
  || Nat.eqb n 133 || Nat.eqb n 160.

(** [s.lstrip(chars)]: drops leading characters while they belong to
    the set; the argument is a set of characters, not a prefix. *)
Fixpoint lstrip_by (drop : ascii -> bool) (s : string) : string :=
  match s with
  | EmptyString => EmptyString
  | String c s' => if drop c then lstrip_by drop s' else s
  end.

Fixpoint rstrip_by (drop : ascii -> bool) (s : string) : string :=
  match s with
  | EmptyString => EmptyString
  | String c s' =>
      match rstrip_by drop s' with
      | EmptyString => if drop c then EmptyString else String c EmptyString
      | r => String c r
      end
  end.

Definition lstrip (s chars : string) : string := lstrip_by (in_chars chars) s.

(** [s.strip()] with no argument strips white space on both sides. *)
Definition strip (s : string) : string := rstrip_by isspace (lstrip_by isspace s).

(** [s.lower()]: A-Z and the upper-case letters of Latin-1. *)
Definition lower_char (c : ascii) : ascii :=
  let n := nat_of_ascii c in
  if (Nat.leb 65 n && Nat.leb n 90)
     || (Nat.leb 192 n && Nat.leb n 222 && negb (Nat.eqb n 215))
  then ascii_of_nat (n + 32) else c.

Fixpoint lower (s : string) : string :=
  match s with
  | EmptyString => EmptyString
  | String c s' => String (lower_char c) (lower s')
  end.

(** [sep.join(parts)]. *)
Fixpoint join (sep : string) (parts : list string) : string :=
  match parts with
  | [] => ""
  | [p] => p
  | p :: ps => p +:+ sep +:+ join sep ps
  end.

(** [s.replace("```", "")]. *)
Fixpoint remove_fences (s : string) : string :=
  match s with
  | String "`" (String "`" (String "`" s')) => remove_fences s'
  | String c s' => String c (remove_fences s')
  | EmptyString => EmptyString
  end.

End Py.
Export Py.

(** ** [json.dumps] on the two shapes the program serialises *)

Module Json.

Definition dquote : string := String "034"%char EmptyString.
Definition backslash : string := String "092"%char EmptyString.

Definition hex_digit (n : nat) : ascii :=
  if Nat.ltb n 10 then ascii_of_nat (48 + n) else ascii_of_nat (87 + n).

(** [\u00XX] for a code point below 256. *)
Definition escape_u (n : nat) : string :=
  backslash +:+ "u00" +:+
  String (hex_digit (n / 16)) (String (hex_digit (n mod 16)) EmptyString).

(** The encoder's escape table; with [ensure_ascii] every character
    outside [' '..'~'] is escaped, without it only the control
    characters are. *)
Definition escape_char (ensure_ascii : bool) (c : ascii) : string :=
  let n := nat_of_ascii c in
  if Nat.eqb n 34 then backslash +:+ dquote
  else if Nat.eqb n 92 then backslash +:+ backslash
  else if Nat.eqb n 10 then backslash +:+ "n"
  else if Nat.eqb n 13 then backslash +:+ "r"
  else if Nat.eqb n 9 then backslash +:+ "t"
  else if Nat.eqb n 8 then backslash +:+ "b"
  else if Nat.eqb n 12 then backslash +:+ "f"
  else if Nat.ltb n 32 then escape_u n
  else if ensure_ascii && Nat.ltb 126 n then escape_u n
  else String c EmptyString.

Fixpoint escape (ensure_ascii : bool) (s : string) : string :=
  match s with
  | EmptyString => EmptyString
  | String c s' => escape_char ensure_ascii c +:+ escape ensure_ascii s'
  end.

Definition dumps_str (ensure_ascii : bool) (s : string) : string :=
  dquote +:+ escape ensure_ascii s +:+ dquote.

(** The dictionary [{"path": ..., "text": ...}] built by [node_to_jsonl]. *)
Record data := { path : string; text : string }.

(** [json.dumps(data, ensure_ascii=False)]. *)
Definition dumps_data (d : data) : string :=
  "{" +:+ dumps_str false "path" +:+ ": " +:+ dumps_str false (path d) +:+ ", "
      +:+ dumps_str false "text" +:+ ": " +:+ dumps_str false (text d) +:+ "}".

(** [json.dumps(node_tree)] on a list of strings (default [ensure_ascii]). *)
Definition dumps_list (l : list string) : string :=
  "[" +:+ join ", " (map (dumps_str true) l) +:+ "]".

End Json.

(** ** The parse tree of bs4 *)

Module Bs4.

(** A [Comment] is a [NavigableString] too; the program tests for it
    first, so the two are separate constructors.  The [BeautifulSoup]
    object is the [Tag] named ["[document]"]. *)
Inductive node :=
| NavigableString (s : string)
| Comment (s : string)
| Tag (name : string) (attrs : list (string * string)) (contents : list node).

Definition document_name : string := "[document]".

Definition soup_of (contents : list node) : node := Tag document_name [] contents.

Section NodeInd.
Variable P : node -> Prop.
Hypothesis Hstr : forall s, P (NavigableString s).
Hypothesis Hcom : forall s, P (Comment s).
Hypothesis Htag : forall name attrs contents,
    Forall P contents -> P (Tag name attrs contents).

Fixpoint node_ind' (n : node) : P n :=
  match n with
  | NavigableString s => Hstr s
  | Comment s => Hcom s
  | Tag name attrs contents =>
      Htag name attrs contents
        ((fix go (l : list node) : Forall P l :=
            match l with
            | [] => List.Forall_nil P
            | c :: l' => @List.Forall_cons _ P c l' (node_ind' c) (go l')
            end) contents)
  end.
End NodeInd.

(** [tag.attrs.get(key)]. *)
Fixpoint attrs_get (key : string) (attrs : list (string * string)) : option string :=
  match attrs with
  | [] => None
  | (k, v) :: rest => if k =? key then Some v else attrs_get key rest
  end.

(** [tag.get(key)] as a Python value. *)
Definition get (n : node) (key : string) : pyval :=
  match n with
  | Tag _ attrs _ =>
      match attrs_get key attrs with Some v => PyStr v | None => PyNone end
  | _ => PyNone
  end.

(** [tag.descendants]: every node below the tag, in document order. *)
Fixpoint descendants (n : node) : list node :=
  match n with
  | Tag _ _ contents => flat_map (fun c => c :: descendants c) contents
  | _ => []
  end.

Definition is_tag_named (name : string) (n : node) : bool :=
  match n with
  | Tag nm _ _ => nm =? name
  | _ => false
  end.

Definition has_attr (key : string) (n : node) : bool :=
  match n with
  | Tag _ attrs _ => match attrs_get key attrs with Some _ => true | None => false end
  | _ => false
  end.

Definition attr_is (key value : string) (n : node) : bool :=
  match n with
  | Tag _ attrs _ =>
      match attrs_get key attrs with Some v => v =? value | None => false end
  | _ => false
  end.

(** [soup.find_all(name)], and with a filter on the attributes. *)
Definition find_all (n : node) (name : string) : list node :=
  filter (fun d => is_tag_named name d) (descendants n).

Definition find_all_where (n : node) (name : string) (p : node -> bool) : list node :=
  filter (fun d => is_tag_named name d && p d) (descendants n).

(** [soup.find(...)]: the first match, or [None]. *)
Definition find (n : node) (name : string) : option node :=
  head (find_all n name).

Definition find_where (n : node) (name : string) (p : node -> bool) : option node :=
  head (find_all_where n name p).

(** [tag.string]: the single child when it is a string, the [.string] of
    the single child when it is a tag, [None] otherwise. *)
Fixpoint string_of (n : node) : pyval :=
  match n with
  | NavigableString s => PyStr s
  | Comment s => PyStr s
  | Tag _ _ [c] => string_of c
  | Tag _ _ _ => PyNone
  end.

(** The effect on the tree of
    [for element in matches: element.decompose()]
    where [matches] are the descendants on which [doomed] holds:
    each is detached from its parent together with its subtree
    (decomposing an element inside an already detached subtree changes
    nothing in the soup). *)
Fixpoint decompose_all (doomed : node -> bool) (n : node) : node :=
  match n with
  | Tag name attrs contents =>
      Tag name attrs
        (flat_map (fun c => if doomed c then [] else [decompose_all doomed c])
           contents)
  | _ => n
  end.

End Bs4.

(** ** The third-party packages, as interfaces *)

Module Externals.

(** bs4 with soupsieve.  [css_matches sel n] says whether [n] is among
    [soup.select(sel)]; the selectors the program passes are type,
    class and id selectors, which look at the element alone. *)
Class Bs4Lib := {
  BeautifulSoup : string -> result Bs4.node;
  decode_contents : Bs4.node -> string;
  css_matches : string -> Bs4.node -> bool;
}.

(** [html2text.HTML2Text().handle] with [ignore_links = False]. *)
Class Html2Text := { handle : string -> result string }.

(** [urllib.parse.urljoin]; it raises on some malformed references. *)
Class Urllib := { urljoin : string -> string -> result string }.

(** [len(tiktoken.get_encoding("cl100k_base").encode(s))]. *)
Class Tiktoken := { token_count : string -> nat }.

(** What [tree.xpath] returns: a list of nodes, each an element or a
    string (an attribute value or a text), or for a scalar expression a
    number, a boolean or a string, of which the program only tests the
    truth value before it iterates. *)
Inductive xpath_item (E : Type) :=
| XElement (e : E)
| XText (s : string).
Arguments XElement {E} e.
Arguments XText {E} s.

Inductive xpath_value (E : Type) :=
| XNodes (items : list (xpath_item E))
| XScalar (truthy : bool).
Arguments XNodes {E} items.
Arguments XScalar {E} truthy.

(** [lxml.html]: parsing, XPath evaluation and the two parts of what
    [html.tostring(element, encoding="unicode")] writes: the markup of
    the element itself and, as [with_tail] is on by default, its tail,
    the text between its end tag and the next element. *)
Class Lxml := {
  element : Type;
  fromstring : string -> result element;
  xpath : element -> string -> result (xpath_value element);
  markup : element -> string;
  tail : element -> string;
}.

(** The chat model chain: the [content] of the reply to a prompt. *)
Class ChatModel := { invoke : string -> result string }.

End Externals.
Export Externals.

(** ** [CrawlTransformerUtils] *)

Module CrawlTransformerUtils.
Import Bs4.

Definition non_essential_tags : list string :=
  [ "script"; "style"; "meta"; "link"; "iframe"; "svg";
    "noscript"; "figure"; "picture"; "img"; "source"; "button";
    "input"; "nav"; "footer"; "header"; "aside" ].

Definition html_to_markdown `{Html2Text} (html_content : string) : result string :=
  handle html_content.

Definition unsafe_tags : list string :=
  ["script"; "style"; "noscript"; "meta"; "head"].

Definition is_tag (n : node) : bool :=
  match n with Tag _ _ _ => true | _ => false end.

(** The soup after the two removal loops of [remove_unwanted_elements]. *)
Definition remove_unwanted_tree `{Bs4Lib} (soup : node) (exclude_tags : list string)
    (only_main_content : bool) (extra_removals : list string) : node :=
  let soup :=
    fold_left (fun soup tag => decompose_all (is_tag_named tag) soup)
      (unsafe_tags ++ exclude_tags) soup in
  if only_main_content then
    fold_left (fun soup tag => decompose_all (fun n => is_tag n && css_matches tag n) soup)
      extra_removals soup
  else soup.

Definition remove_unwanted_elements `{Bs4Lib} (soup : node) (exclude_tags : list string)
    (only_main_content : bool) (extra_removals : list string) : string :=
  decode_contents (remove_unwanted_tree soup exclude_tags only_main_content extra_removals).

(** One iteration of the loop of [extract_links] on the anchor's [href]. *)
Definition add_link `{Urllib} (base_url : string) (links : gset string) (href : string)
  : result (gset string) :=
  if startswith_any href ["http://"; "https://"] then Ok ({[ href ]} ∪ links)
  else if startswith href "/" then
    bind (urljoin base_url href) (fun u => Ok ({[ u ]} ∪ links))
  else if negb (startswith_any href ["#"; "mailto:"]) then
    bind (urljoin base_url href) (fun u => Ok ({[ u ]} ∪ links))
  else if startswith href "mailto:" then Ok ({[ href ]} ∪ links)
  else Ok links.

(** The [href] values of [soup.find_all("a", href=True)], in document order. *)
Definition anchor_hrefs (soup : node) : list string :=
  omap (fun a => match a with Tag _ attrs _ => attrs_get "href" attrs | _ => None end)
    (find_all_where soup "a" (has_attr "href")).

Fixpoint add_links `{Urllib} (base_url : string) (links : gset string) (hrefs : list string)
  : result (gset string) :=
  match hrefs with
  | [] => Ok links
  | href :: rest => bind (add_link base_url links href) (fun links => add_links base_url links rest)
  end.

Definition extract_links `{Urllib} (soup : node) (base_url : string) : result (list string) :=
  bind (add_links base_url ∅ (anchor_hrefs soup)) (fun links => Ok (elements links)).

(** [tag.replace("og:", "")]. *)
Fixpoint remove_og (s : string) : string :=
  match s with
  | String "o" (String "g" (String ":" s')) => remove_og s'
  | String c s' => String c (remove_og s')
  | EmptyString => EmptyString
  end.

Definition og_tags : list string := ["og:title"; "og:description"; "og:url"; "og:image"].

(** [(soup.find("meta", attrs={"name": name}) or {}).get("content")]. *)
Definition meta_content (soup : node) (name : string) : pyval :=
  match find_where soup "meta" (attr_is "name" name) with
  | Some m => get m "content"
  | None => PyNone
  end.

Definition extract_metadata (soup : node) : gmap string pyval :=
  let metadata : gmap string pyval :=
    <[ "language" := match find soup "html" with Some h => get h "lang" | None => PyNone end ]>
    (<[ "keywords" := meta_content soup "keywords" ]>
    (<[ "description" := meta_content soup "description" ]>
    (<[ "title" := match find soup "title" with Some t => string_of t | None => PyNone end ]>
     ∅))) in
  fold_left
    (fun metadata tag =>
       match find_where soup "meta" (attr_is "property" tag) with
       | Some og_meta => <[ remove_og tag := get og_meta "content" ]> metadata
       | None => metadata
       end)
    og_tags metadata.

Fixpoint node_to_jsonl (n : node) (non_essential_tags_arg : option (list string))
    (path_prefix : string) : list string :=
  let non_essential_tags := default non_essential_tags non_essential_tags_arg in
  match n with
  | Comment _ => []
  | NavigableString s =>
      let text := strip s in
      if negb (text =? "") then
        let current_path := lstrip path_prefix "/[document]" in
        [Json.dumps_data {| Json.path := current_path; Json.text := text |}]
      else []
  | Tag name _ contents =>
      if existsb (String.eqb (lower name)) non_essential_tags then []
      else
        let current_path :=
          if negb (path_prefix =? "") then path_prefix +:+ "/" +:+ name
          else "/" +:+ name in
        flat_map (fun child => node_to_jsonl child (Some non_essential_tags) current_path)
          contents
  end.

(** The dictionaries built by [node_to_dict]: [{'type': 'text', ...}]
    and [{'type': 'element', ...}], whose keys ['attrs'] and
    ['children'] are set only when the value is not empty. *)
Inductive node_dict :=
| TextDict (text : string)
| ElementDict (name : string) (attrs : option (list (string * string)))
    (children : option (list node_dict)).

Definition nonempty {A} (l : list A) : option (list A) :=
  match l with [] => None | _ => Some l end.

(** [node_to_dict]; the recursive call passes no tag list, so below the
    node it is called on the default list is used. *)
Fixpoint node_to_dict (n : node) (non_essential_tags_arg : option (list string))
  : option node_dict :=
  let non_essential_tags := default non_essential_tags non_essential_tags_arg in
  match n with
  | Comment _ => None
  | NavigableString s =>
      let text := strip s in
      if negb (text =? "") then Some (TextDict text) else None
  | Tag name attrs contents =>
      if existsb (String.eqb (lower name)) non_essential_tags then None
      else
        let children :=
          flat_map (fun child => match node_to_dict child None with
                                 | Some child_dict => [child_dict]
                                 | None => []
                                 end) contents in
        Some (ElementDict name (nonempty attrs) (nonempty children))
  end.

End CrawlTransformerUtils.

(** ** [CrawlTransformers]: the transformation pipeline *)

Module CrawlTransformers.
Import Bs4 CrawlTransformerUtils.

(** [meta["options"]]: both keys are read with [.get] and a default. *)
Record options := {
  excludeTags : option (list string);
  onlyMainContent : option bool;
}.

(** The [meta] dictionary; [meta_options = None] is a dictionary
    without the key ["options"]. *)
Record meta := {
  meta_url : string;
  meta_options : option options;
}.

(** The [document] dictionary; a field is [None] while its key is unset. *)
Record document := {
  rawHtml : option pyval;
  html : option pyval;
  full_markdown : option string;
  metadata : option (gmap string pyval);
  node_tree : option (list string);
  mc_path : option string;
  mc_html : option string;
  mc_markdown : option string;
  mc_links : option (list string);
}.

Definition set_html (v : pyval) (d : document) : document :=
  {| rawHtml := rawHtml d; html := Some v; full_markdown := full_markdown d;
     metadata := metadata d; node_tree := node_tree d; mc_path := mc_path d;
     mc_html := mc_html d; mc_markdown := mc_markdown d; mc_links := mc_links d |}.

Definition set_full_markdown (v : string) (d : document) : document :=
  {| rawHtml := rawHtml d; html := html d; full_markdown := Some v;
     metadata := metadata d; node_tree := node_tree d; mc_path := mc_path d;
     mc_html := mc_html d; mc_markdown := mc_markdown d; mc_links := mc_links d |}.

Definition set_metadata (v : gmap string pyval) (d : document) : document :=
  {| rawHtml := rawHtml d; html := html d; full_markdown := full_markdown d;
     metadata := Some v; node_tree := node_tree d; mc_path := mc_path d;
     mc_html := mc_html d; mc_markdown := mc_markdown d; mc_links := mc_links d |}.

Definition set_node_tree (v : list string) (d : document) : document :=
  {| rawHtml := rawHtml d; html := html d; full_markdown := full_markdown d;
     metadata := metadata d; node_tree := Some v; mc_path := mc_path d;
     mc_html := mc_html d; mc_markdown := mc_markdown d; mc_links := mc_links d |}.

Definition set_mc_path (v : string) (d : document) : document :=
  {| rawHtml := rawHtml d; html := html d; full_markdown := full_markdown d;
     metadata := metadata d; node_tree := node_tree d; mc_path := Some v;
     mc_html := mc_html d; mc_markdown := mc_markdown d; mc_links := mc_links d |}.

Definition set_mc_html (v : string) (d : document) : document :=
  {| rawHtml := rawHtml d; html := html d; full_markdown := full_markdown d;
     metadata := metadata d; node_tree := node_tree d; mc_path := mc_path d;
     mc_html := Some v; mc_markdown := mc_markdown d; mc_links := mc_links d |}.

Definition set_mc_markdown (v : string) (d : document) : document :=
  {| rawHtml := rawHtml d; html := html d; full_markdown := full_markdown d;
     metadata := metadata d; node_tree := node_tree d; mc_path := mc_path d;
     mc_html := mc_html d; mc_markdown := Some v; mc_links := mc_links d |}.

Definition set_mc_links (v : list string) (d : document) : document :=
  {| rawHtml := rawHtml d; html := html d; full_markdown := full_markdown d;
     metadata := metadata d; node_tree := node_tree d; mc_path := mc_path d;
     mc_html := mc_html d; mc_markdown := mc_markdown d; mc_links := Some v |}.

Definition exclude_non_main_tags : list string :=
  [ "header"; "footer"; "nav"; "aside"; ".header"; ".top"; ".navbar"; "#header";
    ".footer"; ".bottom"; "#footer"; ".sidebar"; ".side"; ".aside"; "#sidebar";
    ".modal"; ".popup"; "#modal"; ".overlay"; ".ad"; ".ads"; ".advert"; "#ad";
    ".lang-selector"; ".language"; "#language-selector"; ".social"; ".social-media";
    ".social-links"; "#social"; ".menu"; ".navigation"; "#nav"; ".breadcrumbs";
    "#breadcrumbs"; "#search-form"; ".search"; "#search"; ".share"; "#share";
    ".widget"; "#widget"; ".cookie"; "#cookie" ].

(** The error raised when [rawHtml] is falsy. *)
Definition MissingInput : exn :=
  ValueError "rawHtml is undefined or empty. Transformation cannot proceed.".

(** A transformer takes the soup, [meta] and the document and returns
    the document.  Each of the four assigns one key as its last step, so
    a transformer that raises has not changed the document. *)
Definition transformer := node -> meta -> document -> result document.

Definition _derive_html_from_raw_html `{Bs4Lib} : transformer :=
  fun soup meta document =>
    bind (getitem "options" (meta_options meta)) (fun opts =>
      Ok (set_html
            (PyStr (remove_unwanted_elements soup
                      (default [] (excludeTags opts))
                      (default false (onlyMainContent opts))
                      exclude_non_main_tags))
            document)).

(** [html2text] on something that is not a string. *)
Definition markdown_of `{Html2Text} (v : pyval) : result string :=
  match v with
  | PyStr s => html_to_markdown s
  | PyNone => Raise (TypeError "html2text: expected a string")
  end.

Definition _derive_markdown_from_html `{Html2Text} : transformer :=
  fun soup meta document =>
    bind (getitem "html" (html document)) (fun h =>
      bind (markdown_of h) (fun md => Ok (set_full_markdown md document))).

(** [{**extract_metadata(soup), **document.get("metadata", {})}]: on a
    common key the entry already in the document wins. *)
Definition _derive_metadata_from_html : transformer :=
  fun soup meta document =>
    Ok (set_metadata (default ∅ (metadata document) ∪ extract_metadata soup) document).

Definition _derive_node_tree : transformer :=
  fun soup meta document =>
    Ok (set_node_tree (node_to_jsonl soup None "") document).

(** A registered transformer with its [__name__]. *)
Record registered := { name : string; run : transformer }.

Definition transformers `{Bs4Lib} `{Html2Text} : list registered :=
  [ {| name := "_derive_html_from_raw_html"; run := _derive_html_from_raw_html |};
    {| name := "_derive_markdown_from_html"; run := _derive_markdown_from_html |};
    {| name := "_derive_metadata_from_html"; run := _derive_metadata_from_html |};
    {| name := "_derive_node_tree"; run := _derive_node_tree |} ].

(** One line of [self.logger.error]: the transformer and the exception. *)
Record log_record := { transformer_name : string; cause : exn }.

(** [BeautifulSoup(document["html"], "html.parser")]. *)
Definition parse `{Bs4Lib} (d : document) : result node :=
  bind (getitem "html" (html d)) (fun h =>
    match h with
    | PyStr s => BeautifulSoup s
    | PyNone => Raise (TypeError "BeautifulSoup: expected markup")
    end).

(** The body of the [try] of one iteration. *)
Definition attempt `{Bs4Lib} (t : registered) (m : meta) (d : document) : result document :=
  match rawHtml d with
  | None => Raise MissingInput
  | Some raw =>
      if negb (truthy raw) then Raise MissingInput
      else bind (parse d) (fun soup => run t soup m d)
  end.

(** The loop of [execute_transformers] over the transformers still to
    run.  The assignment [document["html"] = document["rawHtml"]] is the
    first statement of every iteration and stands outside the [try]:
    a missing key ends the loop with [KeyError]. *)
Fixpoint run_transformers `{Bs4Lib} (ts : list registered) (m : meta) (d : document)
    (log : list log_record) : list log_record * result document :=
  match ts with
  | [] => (log, Ok d)
  | t :: rest =>
      match rawHtml d with
      | None => (log, Raise (KeyError "rawHtml"))
      | Some raw =>
          let d := set_html raw d in
          match attempt t m d with
          | Ok d' => run_transformers rest m d' log
          | Raise e =>
              run_transformers rest m d
                (log ++ [{| transformer_name := name t; cause := e |}])
          end
      end
  end.

Definition execute_transformers `{Bs4Lib} `{Html2Text} (m : meta) (d : document)
  : list log_record * result document :=
  run_transformers transformers m d [].

End CrawlTransformers.

(** ** [CrawlTransformersMainContent]: boundary resolution and extraction *)

Module CrawlTransformersMainContent.
Import Bs4 CrawlTransformerUtils CrawlTransformers.

Definition self_max_tokens : Z := 60000.

(** [max_tokens or self.max_tokens]: [None] and [0] are falsy. *)
Definition or_default (max_tokens : option Z) : Z :=
  match max_tokens with
  | Some z => if (z =? 0)%Z then self_max_tokens else z
  | None => self_max_tokens
  end.

Definition EmptySequence : exn := ValueError "Node tree is empty. Cannot trim further.".

Definition ContentNotFound : exn := ValueError "Main content nodes not found in the HTML.".

(** [_trim_node_tree].  The list is the caller's list object: the
    function pops from it, so it returns the list as it leaves it
    together with its outcome. *)
Equations? _trim_node_tree `{Tiktoken} (node_tree : list string) (max_tokens : option Z)
  : list string * result string by wf (length node_tree) lt :=
  _trim_node_tree node_tree max_tokens :=
    let json_string := Json.dumps_list node_tree in
    let tokens := Z.of_nat (token_count json_string) in
    let max_tokens := or_default max_tokens in
    if (tokens <=? max_tokens)%Z then (node_tree, Ok json_string)
    else
      match node_tree as l return node_tree = l -> _ with
      | [] => fun _ => ([], Raise EmptySequence)
      | _ :: _ => fun _ => _trim_node_tree (removelast node_tree) (Some max_tokens)
      end eq_refl.
Proof.
  change (length (removelast (s :: l)) < length (s :: l)).
  rewrite removelast_firstn_len, length_firstn. simpl. lia.
Qed.

(** [html.tostring(node, encoding="unicode")] on one item of the
    result: an element is written with its tail, a string is refused. *)
Definition tostring `{Lxml} (node : xpath_item element) : result string :=
  match node with
  | XElement e => Ok (markup e +:+ tail e)
  | XText _ => Raise (TypeError "Type 'lxml.etree._ElementUnicodeResult' cannot be serialized.")
  end.

(** The generator [html.tostring(node, ...) for node in main_content_nodes],
    consumed in order: the first item that raises ends it. *)
Fixpoint tostring_all `{Lxml} (nodes : list (xpath_item element)) : result (list string) :=
  match nodes with
  | [] => Ok []
  | node :: rest =>
      bind (tostring node) (fun part =>
        bind (tostring_all rest) (fun parts => Ok (part :: parts)))
  end.

(** [_get_main_content_html]: a failure of the parser or of the XPath
    evaluation is re-raised as a [ValueError]; what is raised after the
    [try] (no match, or a result that cannot be iterated or serialised)
    leaves the function as it is. *)
Definition _get_main_content_html `{Lxml} (full_html : pyval) (main_content_selector : string)
  : result string :=
  let selected :=
    match full_html with
    | PyStr s => bind (fromstring s) (fun tree => xpath tree main_content_selector)
    | PyNone => Raise (TypeError "lxml: expected markup")
    end in
  match selected with
  | Raise e => Raise (Wrapped "ValueError" "Failed to select main content nodes: " e)
  | Ok main_content_nodes =>
      match main_content_nodes with
      | XNodes [] | XScalar false => Raise ContentNotFound
      | XScalar true => Raise (TypeError "the XPath result is not a list of nodes")
      | XNodes nodes => bind (tostring_all nodes) (fun parts => Ok (join "" parts))
      end
  end.

Definition _clean_result_path (result : string) : string :=
  strip (remove_fences result).

(** Computations on the [cleaned_data_obj] dictionary, which is mutated
    in place: the object is threaded as state and survives a raise. *)
Definition M (A : Type) : Type := document -> document * result A.

Definition ret {A} (a : A) : M A := fun d => (d, Ok a).

Definition mbind {A B} (c : M A) (k : A -> M B) : M B :=
  fun d => match c d with
           | (d', Ok a) => k a d'
           | (d', Raise e) => (d', Raise e)
           end.

Definition lift {A} (r : result A) : M A := fun d => (d, r).

Definition read {A} (key : string) (field : document -> option A) : M A :=
  fun d => (d, getitem key (field d)).

Definition write (set : document -> document) : M unit := fun d => (set d, Ok tt).

Definition try_except {A} (c : M A) (handler : exn -> M A) : M A :=
  fun d => match c d with
           | (d', Ok a) => (d', Ok a)
           | (d', Raise e) => handler e d'
           end.

Notation "x <- c ;; k" := (mbind c (fun x => k))
  (at level 100, c at next level, right associativity).
Notation "c ;;; k" := (mbind c (fun _ => k))
  (at level 100, right associativity).

(** A call that receives the list object stored under ["node_tree"]:
    what the callee does to the list is seen through the dictionary. *)
Definition on_node_tree {A} (f : list string -> list string * result A) : M A :=
  fun d => match node_tree d with
           | Some l => let '(l', r) := f l in (set_node_tree l' d, r)
           | None => (d, Raise (KeyError "node_tree"))
           end.

(** [extract_main_content]; the result is the outcome and the object in
    its final state (the message logged before re-raising is left out). *)
Definition extract_main_content
    `{Bs4Lib} `{Html2Text} `{Urllib} `{Tiktoken} `{Lxml} `{ChatModel}
    (url : string) : M unit :=
  try_except
    (full_html <- read "html" html ;;
     trimmed_json_string <- on_node_tree (fun node_tree => _trim_node_tree node_tree None) ;;
     result <- lift (invoke trimmed_json_string) ;;
     let cleaned_result := _clean_result_path (strip result) in
     main_content_html <- lift (_get_main_content_html full_html cleaned_result) ;;
     write (set_mc_path cleaned_result) ;;;
     write (set_mc_html main_content_html) ;;;
     md <- lift (html_to_markdown main_content_html) ;;
     write (set_mc_markdown md) ;;;
     soup <- lift (BeautifulSoup main_content_html) ;;
     links <- lift (extract_links soup url) ;;
     write (set_mc_links links))
    (fun e => lift (Raise (Wrapped "RuntimeError" "Failed to extract main content: " e))).

End CrawlTransformersMainContent.

(** ** [MCScraperService]: one URL from fetched page to result *)

Module MCScraperService.
Import Bs4 CrawlTransformerUtils CrawlTransformers CrawlTransformersMainContent.

(** What the fetch layer hands over. *)
Record ScrapingServiceOutput := {
  link : string;
  status_code : option Z;
  fetched_html : pyval;
}.

(** The two shapes of the per-document result. *)
Inductive outcome :=
| Content (url main_content_html main_content_markdown : string) (links : list string)
| Error (url : string) (error : string) (cause : option exn).

Definition _prepare_meta (url : string) : meta :=
  {| meta_url := url;
     meta_options := Some {| excludeTags := None; onlyMainContent := None |} |}.

Definition new_document (raw : pyval) : document :=
  {| rawHtml := Some raw; html := None; full_markdown := None; metadata := Some ∅;
     node_tree := None; mc_path := None; mc_html := None; mc_markdown := None;
     mc_links := None |}.

Definition error_of (url : string) (e : exn) : outcome :=
  Error url "Error fetching main content: " (Some e).

(** [fetch_main_content] after the fetch has returned [fetched_data]. *)
Definition fetch_main_content
    `{Bs4Lib} `{Html2Text} `{Urllib} `{Tiktoken} `{Lxml} `{ChatModel}
    (fetched_data : ScrapingServiceOutput) (url : string) : outcome :=
  if negb (truthy (fetched_html fetched_data))
     || negb (bool_decide (status_code fetched_data = Some 200%Z))
  then Error url "Failed to fetch content or bad status code" None
  else
    let meta := _prepare_meta url in
    let document := new_document (fetched_html fetched_data) in
    match execute_transformers meta document with
    | (_, Raise e) => error_of url e
    | (_, Ok cleaned_document) =>
        match extract_main_content url cleaned_document with
        | (_, Raise e) => error_of url e
        | (main_content, Ok _) =>
            match getitem "mc_html" (mc_html main_content),
                  getitem "mc_markdown" (mc_markdown main_content),
                  getitem "mc_links" (mc_links main_content) with
            | Ok h, Ok md, Ok ls => Content url h md ls
            | Raise e, _, _ | _, Raise e, _ | _, _, Raise e => error_of url e
            end
        end
    end.

End MCScraperService.

(** ** [main.py]: the artifacts written for the results *)

Module Main.
Import MCScraperService.

(** [s.replace(old, new)] for single characters. *)
Fixpoint replace_char (old new : ascii) (s : string) : string :=
  match s with
  | EmptyString => EmptyString
  | String c s' =>
      String (if Ascii.eqb c old then new else c) (replace_char old new s')
  end.

(** [result['url'].replace('/', '_').replace(':', '_')]. *)
Definition filename_base (url : string) : string :=
  replace_char ":" "_" (replace_char "/" "_" url).

(** [os.path.join(a, b)] on POSIX for a directory name without a final
    slash: an absolute second component replaces the first. *)
Definition path_join (a b : string) : string :=
  if startswith b "/" then b else a +:+ "/" +:+ b.

Definition output_dir : string := "output".

(** What [process_results] does for one result: the files it writes,
    or the line it logs. *)
Inductive effect :=
| WriteMarkdown (file content : string)
| WriteLinks (file : string) (links : list string)
| LogError (url error : string) (cause : option exn).

Definition process_result (result : outcome) : list effect :=
  match result with
  | Content url _ main_content_markdown links =>
      let filename_base := filename_base url in
      [ WriteMarkdown (path_join output_dir (filename_base +:+ ".md"))
          main_content_markdown;
        WriteLinks (path_join output_dir (filename_base +:+ "_links.json")) links ]
  | Error url error cause => [LogError url error cause]
  end.

Definition process_results (results : list outcome) : list effect :=
  flat_map process_result results.

End Main.

(** ** Test doubles

    Small stand-ins for the third-party packages, used to run the
    program on concrete pages.  The parser knows the pages listed in
    [known_pages] and reads any other markup as one text node. *)

Module Doubles.
Import Bs4 CrawlTransformerUtils CrawlTransformers CrawlTransformersMainContent.

Definition serialize_attr (kv : string * string) : string :=
  " " +:+ fst kv +:+ "=" +:+ Json.dquote +:+ snd kv +:+ Json.dquote.

Fixpoint serialize (n : node) : string :=
  match n with
  | NavigableString s => s
  | Comment s => "<!--" +:+ s +:+ "-->"
  | Tag name attrs contents =>
      "<" +:+ name +:+ join "" (map serialize_attr attrs) +:+ ">"
      +:+ join "" (map serialize contents) +:+ "</" +:+ name +:+ ">"
  end.

Definition serialize_contents (n : node) : string :=
  match n with
  | Tag _ _ contents => join "" (map serialize contents)
  | _ => ""
  end.

(** The page of the scenario: navigation, then an article with a link. *)
Definition article : node :=
  Tag "article" []
    [Tag "p" [] [NavigableString "Hello "; Tag "a" [("href", "/x")] [NavigableString "link"]]].

Definition page : node :=
  soup_of [Tag "html" []
             [Tag "body" [] [Tag "nav" [] [NavigableString "Home"]; article]]].

(** A page with a script in front of a paragraph. *)
Definition scripted : node :=
  soup_of [Tag "script" [] [NavigableString "x"]; Tag "p" [] [NavigableString "hi"]].

(** A fragment whose outermost element is a [div]. *)
Definition fragment : node :=
  soup_of [Tag "div" [] [NavigableString "hello"]].

Definition known_pages : list node := [page; scripted; fragment; soup_of [article]].

Definition parse_known (s : string) : node :=
  default (soup_of [NavigableString s])
    (head (filter (fun p => serialize_contents p =? s) known_pages)).

Definition simple_selector (sel : string) (n : node) : bool :=
  match sel with
  | String "." cls => attr_is "class" cls n
  | String "#" id => attr_is "id" id n
  | _ => is_tag_named sel n
  end.

#[export] Instance bs4_double : Bs4Lib :=
  {| BeautifulSoup s := Ok (parse_known s);
     decode_contents := serialize_contents;
     css_matches := simple_selector |}.

(** Markdown rendering that returns the markup as it is. *)
#[export] Instance html2text_double : Html2Text := {| handle s := Ok s |}.

(** Markdown rendering that always raises. *)
Definition html2text_failing : Html2Text :=
  {| handle _ := Raise (LibraryError "html2text") |}.

(** Joins by gluing the reference to the base without its final slash. *)
#[export] Instance urllib_double : Urllib :=
  {| urljoin base ref :=
       Ok (rstrip_by (in_chars "/") base +:+ "/" +:+ lstrip ref "/") |}.

(** One token per character. *)
#[export] Instance tiktoken_double : Tiktoken := {| token_count := String.length |}.

Definition fence : string := "```".
Definition newline : string := String "010"%char EmptyString.

(** The oracle always answers with the fenced path of the article. *)
#[export] Instance chat_double : ChatModel :=
  {| invoke _ := Ok (fence +:+ newline +:+ "/html/body/article" +:+ newline +:+ fence) |}.

(** XPath evaluation that knows absolute paths made of tag names only:
    the elements reached from the root by following the names. *)
Fixpoint split_path (s : string) : list string :=
  match s with
  | EmptyString => [EmptyString]
  | String c s' =>
      if Ascii.eqb c "/" then EmptyString :: split_path s'
      else match split_path s' with
           | seg :: segs => String c seg :: segs
           | [] => [String c EmptyString]
           end
  end.

(** The page of the scenario with a text after the article. *)
Definition tailed_page : node :=
  soup_of [Tag "html" []
             [Tag "body" [] [article; NavigableString " and more"]]].

Definition parse_lxml (s : string) : node :=
  if serialize_contents tailed_page =? s then tailed_page else parse_known s.

(** The children of an element, each with its tail: the text node that
    follows it, if one does. *)
Fixpoint with_tails (cs : list node) : list (node * string) :=
  match cs with
  | [] => []
  | c :: rest =>
      (c, match rest with NavigableString t :: _ => t | _ => EmptyString end)
      :: with_tails rest
  end.

Fixpoint follow (names : list string) (ns : list (node * string)) : list (node * string) :=
  match names with
  | [] => ns
  | name :: rest =>
      follow rest
        (flat_map (fun n => match fst n with
                            | Tag _ _ cs =>
                                filter (fun c => is_tag_named name (fst c)) (with_tails cs)
                            | _ => []
                            end) ns)
  end.

#[export] Instance lxml_double : Lxml :=
  {| element := node * string;
     fromstring s := Ok (parse_lxml s, EmptyString);
     xpath tree sel :=
       match split_path sel with
       | EmptyString :: names => Ok (XNodes (map XElement (follow names [tree])))
       | _ => Raise (LibraryError "XPathEvalError")
       end;
     markup e := serialize (fst e);
     tail e := snd e |}.

(** A [urljoin] double that, like the real one, rejects a reference
    with an unclosed bracket in its host. *)
Definition urllib_strict : Urllib :=
  {| urljoin base ref :=
       if startswith ref "//[" then Raise (ValueError "Invalid IPv6 URL")
       else Ok (rstrip_by (in_chars "/") base +:+ "/" +:+ lstrip ref "/") |}.

(** Three anchors: an absolute link, a mail address, and a reference
    that [urljoin] rejects. *)
Definition anchors_with_malformed : node :=
  soup_of [ Tag "a" [("href", "https://a.example/")] [];
            Tag "a" [("href", "mailto:x@a.example")] [];
            Tag "a" [("href", "//[x")] [] ].

End Doubles.

(** * Vocabulary of the statements *)

Import Bs4 CrawlTransformerUtils CrawlTransformers CrawlTransformersMainContent
  MCScraperService.
Open Scope list_scope.

(** The test of the trimming loop: the serialised list is within the budget. *)
Definition fits `{Tiktoken} (budget : Z) (l : list string) : bool :=
  (Z.of_nat (token_count (Json.dumps_list l)) <=? budget)%Z.

(** What the trimming loop computes: the longest prefix that fits, or nothing. *)
Inductive trimmed `{Tiktoken} (budget : Z) (l : list string)
  : list string * result string -> Prop :=
| trimmed_prefix k :
    k <= length l ->
    fits budget (take k l) = true ->
    (forall j, k < j <= length l -> fits budget (take j l) = false) ->
    trimmed budget l (take k l, Ok (Json.dumps_list (take k l)))
| trimmed_empty :
    (forall j, j <= length l -> fits budget (take j l) = false) ->
    trimmed budget l ([], Raise EmptySequence).


(** A tokenizer double that charges 600 units for every character. *)
Definition tiktoken_coarse : Tiktoken :=
  {| token_count s := 600 * String.length s |}.

(** The path that [node_to_jsonl] hands to the children of an element. *)
Definition child_path (path_prefix name : string) : string :=
  if negb (path_prefix =? "")%string then (path_prefix +:+ "/" +:+ name)%string
  else ("/" +:+ name)%string.

(** [emits tags n p r]: below [n], reached with path prefix [p], there
    is a text node that yields the record [r], and no element on the
    way down to it has a name in [tags]. *)
Inductive emits (tags : list string) : node -> string -> Json.data -> Prop :=
| emits_text s p :
    strip s <> ""%string ->
    emits tags (NavigableString s) p
      {| Json.path := lstrip p "/[document]"; Json.text := strip s |}
| emits_child name attrs contents p c r :
    existsb (String.eqb (lower name)) tags = false ->
    In c contents ->
    emits tags c (child_path p name) r ->
    emits tags (Tag name attrs contents) p r.

Definition og_meta (soup : node) (property : string) : option node :=
  find_where soup "meta" (attr_is "property" property).


(** The three kinds of [href] the link extractor tells apart. *)
Definition passes_through (href : string) : bool :=
  startswith_any href ["http://"; "https://"]%string || startswith href "mailto:".

Definition is_anchor_only (href : string) : bool := startswith href "#".

Definition needs_base (href : string) : bool :=
  negb (passes_through href) && negb (is_anchor_only href).

(** What one [href] adds to the set of links. *)
Definition yields `{Urllib} (base href u : string) : Prop :=
  (passes_through href = true /\ u = href)
  \/ (needs_base href = true /\ urljoin base href = Ok u).

(** An element whose tag name is one of [tags]. *)
Definition named_in (tags : list string) (n : node) : bool :=
  existsb (fun tag => is_tag_named tag n) tags.

(** The sanitizer as the specification words it when the
    main-content-only flag is off: the elements with an unsafe or
    excluded tag name go, with what they contain, and nothing else. *)
Definition prune (tags : list string) (soup : node) : node :=
  decompose_all (named_in tags) soup.

(** [chain n [c1; ...; ck]]: [c1] is a child of [n], [c2] a child of
    [c1], and so on: the way from [n] down to the node [ck]. *)
Inductive chain : node -> list node -> Prop :=
| chain_here n : chain n []
| chain_down name attrs contents c cs :
    In c contents -> chain c cs -> chain (Tag name attrs contents) (c :: cs).

(** A transformer that, when it succeeds, leaves ["rawHtml"] as it was. *)
Definition preserves_raw (t : registered) : Prop :=
  forall soup m d d', run t soup m d = Ok d' -> rawHtml d' = rawHtml d.

(** The log line of a transformer that raised. *)
Definition logged (t : registered) (e : exn) : log_record :=
  {| transformer_name := name t; cause := e |}.

(** A transformer that, when it succeeds, leaves the field [f] as it was. *)
Definition keeps {A} (f : document -> A) (t : registered) : Prop :=
  forall soup m d d', run t soup m d = Ok d' -> f d' = f d.

(** The number of backticks a string starts with, and whether a run of
    three backticks occurs anywhere in it. *)
Fixpoint leading_ticks (s : string) : nat :=
  match s with
  | String c s' => if Ascii.eqb c "`" then S (leading_ticks s') else 0
  | EmptyString => 0
  end.

Fixpoint has_fence (s : string) : bool :=
  match s with
  | EmptyString => false
  | String _ s' => Nat.leb 3 (leading_ticks s) || has_fence s'
  end.

(** What the pipeline makes of a document whose raw markup is the
    non-empty string [raw]: the log and the document, in one expression. *)
Definition pipeline_outcome `{Bs4Lib} `{Html2Text} (m : meta) (d : document)
    (raw : string) : list log_record * document :=
  match BeautifulSoup raw with
  | Raise e => (map (fun t => logged t e) transformers, set_html (PyStr raw) d)
  | Ok soup =>
      let log1 :=
        match meta_options m with
        | Some _ => []
        | None => [ {| transformer_name := "_derive_html_from_raw_html";
                       cause := KeyError "options" |} ]
        end in
      let log2 :=
        match handle raw with
        | Ok _ => []
        | Raise e => [ {| transformer_name := "_derive_markdown_from_html";
                          cause := e |} ]
        end in
      (log1 ++ log2,
       {| rawHtml := rawHtml d;
          html := Some (PyStr raw);
          full_markdown := match handle raw with
                           | Ok md => Some md
                           | Raise _ => full_markdown d
                           end;
          metadata := Some (default ∅ (metadata d) ∪ extract_metadata soup);
          node_tree := Some (node_to_jsonl soup None "");
          mc_path := mc_path d; mc_html := mc_html d;
          mc_markdown := mc_markdown d; mc_links := mc_links d |})
  end.

(** The records behind the lines of [node_to_jsonl], before they are
    serialised. *)
Fixpoint node_records (tags : list string) (n : node) (path_prefix : string)
  : list Json.data :=
  match n with
  | Comment _ => []
  | NavigableString s =>
      if negb (strip s =? "")%string
      then [ {| Json.path := lstrip path_prefix "/[document]"; Json.text := strip s |} ]
      else []
  | Tag name _ contents =>
      if existsb (String.eqb (lower name)) tags then []
      else flat_map (fun c => node_records tags c (child_path path_prefix name)) contents
  end.

(** The texts of a dictionary of [node_to_dict], in document order. *)
Fixpoint dict_texts (d : node_dict) : list string :=
  match d with
  | TextDict text => [text]
  | ElementDict _ _ (Some children) => flat_map dict_texts children
  | ElementDict _ _ None => []
  end.

(** The file an effect of [process_results] writes, if it writes one. *)
Definition written_file (eff : Main.effect) : option string :=
  match eff with
  | Main.WriteMarkdown file _ => Some file
  | Main.WriteLinks file _ => Some file
  | Main.LogError _ _ _ => None
  end.

(** A result of the success shape. *)
Definition has_content (r : outcome) : bool :=
  match r with Content _ _ _ _ => true | Error _ _ _ => false end.

(** A parser double that rejects every page. *)
Definition bs4_failing : Bs4Lib :=
  {| BeautifulSoup _ := Raise (LibraryError "html.parser");
     decode_contents := Doubles.serialize_contents;
     css_matches := Doubles.simple_selector |}.


(** The link extractor as the specification words it, for a subtree
    and a base URL: a list without duplicates comes back that holds
    every [http(s)] and [mailto:] reference as it is and every other
    reference that is not an in-page anchor resolved against the base. *)
Definition link_extractor_as_specified `{Urllib} (soup : node) (base_url : string) : Prop :=
  exists links,
    extract_links soup base_url = Ok links
    /\ NoDup links
    /\ (forall h, In h (anchor_hrefs soup) -> passes_through h = true -> In h links)
    /\ (forall h, In h (anchor_hrefs soup) -> needs_base h = true ->
          exists u, urljoin base_url h = Ok u /\ In u links)
    /\ (forall u, In u links ->
          exists h, In h (anchor_hrefs soup) /\ startswith h "#" = false).

(** * Properties *)

(** ** The token-budget trimmer *)

Section Trimmer.
Context `{Tiktoken}.

Lemma or_default_idem (b : option Z) : or_default (Some (or_default b)) = or_default b.
Proof.
  unfold or_default. destruct b as [z|]; [|reflexivity].
  destruct (z =? 0)%Z eqn:E; [reflexivity|]. rewrite E. reflexivity.
Qed.

Lemma or_default_nonzero (b : option Z) : or_default b ≠ 0%Z.
Proof.
  unfold or_default. destruct b as [z|]; [|discriminate].
  destruct (z =? 0)%Z eqn:E; [discriminate|]. apply Z.eqb_neq, E.
Qed.

(** One turn of the [while True] loop. *)
Lemma trim_unfold (l : list string) (b : option Z) :
  _trim_node_tree l b =
  if fits (or_default b) l then (l, Ok (Json.dumps_list l))
  else match l with
       | [] => ([], Raise EmptySequence)
       | _ :: _ => _trim_node_tree (removelast l) (Some (or_default b))
       end.
Proof.
  rewrite _trim_node_tree_equation_1. unfold fits. cbv zeta.
  destruct (_ <=? _)%Z; [reflexivity|]. destruct l; reflexivity.
Qed.

Lemma trim_trimmed (l : list string) (b : option Z) :
  trimmed (or_default b) l (_trim_node_tree l b).
Proof.
  revert b. induction l as [|x l IH] using rev_ind; intros b.
  - rewrite trim_unfold. destruct (fits (or_default b) []) eqn:E.
    + apply (trimmed_prefix _ [] 0); [simpl; lia | exact E |].
      simpl. intros j Hj. lia.
    + apply trimmed_empty. simpl. intros j Hj.
      replace j with 0 by lia. exact E.
  - rewrite trim_unfold. destruct (fits (or_default b) (l ++ [x])) eqn:E.
    + pose proof (trimmed_prefix (or_default b) (l ++ [x]) (length (l ++ [x]))) as P.
      rewrite firstn_all in P. apply P; [lia | exact E | intros j Hj; lia].
    + destruct (l ++ [x]) as [|y l'] eqn:El.
      { destruct l; discriminate. }
      rewrite <- El, removelast_last.
      specialize (IH (Some (or_default b))). rewrite or_default_idem in IH.
      assert (Hlast : forall j, j <= length (l ++ [x]) ->
                take j (l ++ [x]) = if decide (j <= length l) then take j l else l ++ [x]).
      { intros j Hj. rewrite length_app in Hj. simpl in Hj. case_decide.
        - apply take_app_le; assumption.
        - apply firstn_all2. rewrite length_app. simpl. lia. }
      inversion IH as [k Hk Hfit Hrest Heq | Hnone Heq].
      * rewrite <- (take_app_le l [x] k) by assumption.
        apply trimmed_prefix.
        -- rewrite length_app. simpl. lia.
        -- rewrite take_app_le by assumption. exact Hfit.
        -- intros j Hj. rewrite Hlast by lia. case_decide.
           ++ apply Hrest. lia.
           ++ rewrite El. exact E.
      * apply trimmed_empty. intros j Hj. rewrite Hlast by lia. case_decide.
        -- apply Hnone. assumption.
        -- rewrite El. exact E.
Qed.

End Trimmer.

(** ** C3: the trimmer and its budget *)

Section TrimmerClaims.
Context `{Tiktoken}.


End TrimmerClaims.


(** ** C10 and C4: extraction of the main content *)

Section MainContent.
Context `{Bs4Lib} `{Html2Text} `{Urllib} `{Tiktoken} `{Lxml} `{ChatModel}.

(** Everything [extract_main_content] does after the trimming leaves the
    list under ["node_tree"] alone. *)
Lemma extract_main_content_node_tree (url : string) (d : document) (h : pyval)
    (l : list string) :
  html d = Some h -> node_tree d = Some l ->
  node_tree (fst (extract_main_content url d)) = Some (fst (_trim_node_tree l None)).
Proof.
  intros Hh Hl.
  unfold extract_main_content, try_except, mbind, read, on_node_tree, lift, write.
  rewrite Hh, Hl. simpl.
  destruct (_trim_node_tree l None) as [l' [json|e]]; simpl; [|reflexivity].
  destruct (invoke json) as [reply|e]; simpl; [|reflexivity].
  destruct (_get_main_content_html h _) as [mc|e]; simpl; [|reflexivity].
  destruct (html_to_markdown mc) as [md|e]; simpl; [|reflexivity].
  destruct (BeautifulSoup mc) as [soup|e]; simpl; [|reflexivity].
  destruct (extract_links soup url) as [links|e]; reflexivity.
Qed.

(** C10.  The trimmer pops from the list object that the document holds
    under ["node_tree"]: whether the extraction succeeds or raises, the
    document afterwards holds the list as the trimmer left it, which is
    the longest prefix of the serialised sequence within the default
    budget of 60000 (the empty list when even that does not fit), not
    the full sequence. *)
Theorem C10_node_tree_trimmed_in_place (url : string) (d : document) (h : pyval)
    (l : list string) :
  html d = Some h ->
  node_tree d = Some l ->
  let d' := fst (extract_main_content url d) in
  node_tree d' = Some (fst (_trim_node_tree l None))
  /\ exists k, k <= length l
       /\ node_tree d' = Some (take k l)
       /\ (forall j, k < j <= length l -> fits 60000%Z (take j l) = false)
       /\ (is_ok (snd (extract_main_content url d)) = true ->
           fits 60000%Z (take k l) = true).
Proof.
  intros Hh Hl d'. subst d'.
  pose proof (extract_main_content_node_tree url d h l Hh Hl) as Hnt.
  split; [exact Hnt|]. rewrite Hnt.
  pose proof (trim_trimmed l None) as T.
  change (or_default None) with 60000%Z in T.
  remember (_trim_node_tree l None) as t eqn:Et.
  destruct T as [k Hk Hfit Hrest | Hnone]; simpl.
  - exists k. auto.
  - exists 0. split; [lia|]. split; [reflexivity|]. split.
    + intros j Hj. apply Hnone. lia.
    + unfold extract_main_content, try_except, mbind, read, on_node_tree, lift.
      rewrite Hh, Hl. simpl. rewrite <- Et. simpl. discriminate.
Qed.




(** A match that is not an element (an attribute value, a text) is
    refused by the serialiser, after the [try]: the [TypeError] leaves
    the function unwrapped. *)
Lemma get_main_content_html_text_match (full_html sel : string) (tree : element)
    (before : list element) (s : string) (after : list (xpath_item element)) :
  fromstring full_html = Ok tree ->
  xpath tree sel = Ok (XNodes (map XElement before ++ XText s :: after)) ->
  exists msg, _get_main_content_html (PyStr full_html) sel = Raise (TypeError msg).
Proof.
  intros Hparse Hxpath. unfold _get_main_content_html. rewrite Hparse. simpl.
  rewrite Hxpath.
  assert (Hall : tostring_all (map XElement before ++ XText s :: after)
                 = bind (tostring (XText s)) (fun part => Ok [part])).
  { clear. induction before as [|n before IH]; [reflexivity|].
    cbn [map app tostring_all tostring bind] in IH |- *. rewrite IH. reflexivity. }
  rewrite Hall. eexists. destruct before; reflexivity.
Qed.


(** A failed extraction becomes the error shape of the result. *)
Lemma fetch_main_content_extraction_raises (fetched : ScrapingServiceOutput)
    (url : string) (log : list log_record) (cleaned : document) (e : exn) :
  truthy (fetched_html fetched) = true ->
  status_code fetched = Some 200%Z ->
  execute_transformers (_prepare_meta url) (new_document (fetched_html fetched))
    = (log, Ok cleaned) ->
  snd (extract_main_content url cleaned) = Raise e ->
  fetch_main_content fetched url = error_of url e.
Proof.
  intros Ht Hs Hrun Hraise. unfold fetch_main_content.
  rewrite Ht, Hs. rewrite bool_decide_eq_true_2 by reflexivity. simpl.
  rewrite Hrun. destruct (extract_main_content url cleaned) as [d' r].
  simpl in Hraise. subst r. reflexivity.
Qed.

End MainContent.



(** On the page of the scenario with the coarse tokenizer the second of
    the two records does not fit and is gone from the document. *)
Lemma C10_witness :
  let d := set_node_tree (node_to_jsonl Doubles.page None "")
             (set_html (PyStr (Doubles.serialize_contents Doubles.page))
                (new_document (PyStr (Doubles.serialize_contents Doubles.page)))) in
  let d' := fst (@extract_main_content Doubles.bs4_double Doubles.html2text_double
                   Doubles.urllib_double tiktoken_coarse Doubles.lxml_double
                   Doubles.chat_double "https://ex.com/" d) in
  length (node_to_jsonl Doubles.page None "") = 2
  /\ node_tree d' = Some (take 1 (node_to_jsonl Doubles.page None "")).
Proof.
  intros d d'. split; [reflexivity|].
  destruct (@C10_node_tree_trimmed_in_place Doubles.bs4_double Doubles.html2text_double
              Doubles.urllib_double tiktoken_coarse Doubles.lxml_double
              Doubles.chat_double "https://ex.com/" d
              (PyStr (Doubles.serialize_contents Doubles.page))
              (node_to_jsonl Doubles.page None "") eq_refl eq_refl) as [Hnt _].
  fold d' in Hnt. rewrite Hnt. vm_compute. reflexivity.
Defined.

(** ** C5: the node-tree serialiser *)

Section Serializer.

Lemma node_to_jsonl_default (n : node) (p : string) :
  node_to_jsonl n None p = node_to_jsonl n (Some non_essential_tags) p.
Proof. destruct n; reflexivity. Qed.

(** A text node yields one record when its stripped content is not
    empty and none otherwise; a comment yields none. *)
Lemma node_to_jsonl_text (s : string) (tags : option (list string)) (p : string) :
  node_to_jsonl (NavigableString s) tags p =
  if (strip s =? "")%string then []
  else [Json.dumps_data {| Json.path := lstrip p "/[document]"; Json.text := strip s |}].
Proof. simpl. destruct (strip s =? "")%string; reflexivity. Qed.

Lemma node_to_jsonl_comment (s : string) (tags : option (list string)) (p : string) :
  node_to_jsonl (Comment s) tags p = [].
Proof. reflexivity. Qed.

Lemma node_to_jsonl_tag (name : string) (attrs : list (string * string))
    (contents : list node) (tags : option (list string)) (p : string) :
  node_to_jsonl (Tag name attrs contents) tags p =
  if existsb (String.eqb (lower name)) (default non_essential_tags tags) then []
  else flat_map
         (fun child =>
            node_to_jsonl child (Some (default non_essential_tags tags))
              (child_path p name))
         contents.
Proof. reflexivity. Qed.

(** An element with a non-essential name yields nothing, whatever it contains. *)
Lemma node_to_jsonl_non_essential (name : string) (attrs : list (string * string))
    (contents : list node) (p : string) :
  In (lower name) non_essential_tags ->
  node_to_jsonl (Tag name attrs contents) None p = [].
Proof.
  intros Hin. rewrite node_to_jsonl_tag. simpl default.
  assert (E : existsb (String.eqb (lower name)) non_essential_tags = true).
  { apply existsb_exists. exists (lower name). split; [exact Hin|].
    apply String.eqb_refl. }
  rewrite E. reflexivity.
Qed.

(** The lines of the serialiser are the records of the text nodes with
    non-empty stripped content that no skipped element contains. *)
Lemma node_to_jsonl_emits (tags : list string) (n : node) :
  forall (p line : string),
    In line (node_to_jsonl n (Some tags) p) <->
    exists r, emits tags n p r /\ line = Json.dumps_data r.
Proof.
  induction n as [s | s | name attrs contents IH] using node_ind'; intros p line.
  - rewrite node_to_jsonl_text. destruct (strip s =? "")%string eqn:E.
    + split; [intros []|]. intros (r & Hr & _). inversion Hr; subst.
      apply String.eqb_eq in E. contradiction.
    + apply String.eqb_neq in E. split.
      * intros [<- | []]. eexists. split; [constructor; exact E | reflexivity].
      * intros (r & Hr & ->). inversion Hr; subst. left. reflexivity.
  - simpl. split; [intros []|]. intros (r & Hr & _). inversion Hr.
  - rewrite node_to_jsonl_tag. simpl default.
    destruct (existsb (String.eqb (lower name)) tags) eqn:E.
    + split; [intros []|]. intros (r & Hr & _). inversion Hr; subst. congruence.
    + rewrite in_flat_map. split.
      * intros (c & Hc & Hline). rewrite List.Forall_forall in IH.
        apply (IH c Hc) in Hline as (r & Hr & ->).
        exists r. split; [|reflexivity]. econstructor; eauto.
      * intros (r & Hr & ->). inversion Hr; subst.
        match goal with Hc : In ?c contents |- _ =>
          exists c; split; [exact Hc|]; rewrite List.Forall_forall in IH;
          apply (IH c Hc); eauto end.
Qed.

(** C5.  On a fragment whose outermost element is a [div] the record of
    the text has the path ["iv"]: [lstrip] takes a set of characters,
    and after the root marker it goes on to remove the [d] of the tag
    name.  The claim asks for the path with the tag name intact. *)
Theorem C5_first_tag_name_truncated :
  node_to_jsonl (soup_of [Tag "div" [] [NavigableString "hello"]]) None ""
    = [Json.dumps_data {| Json.path := "iv"; Json.text := "hello" |}]
  /\ child_path (child_path "" document_name) "div" = "/[document]/div"%string
  /\ lstrip "/[document]/div" "/[document]" = "iv"%string.
Proof. repeat split. Qed.

End Serializer.

(** ** C7: the metadata extractor and the merge *)

Section Metadata.










End Metadata.


(** ** C6: the link extractor *)

Section Links.
Context `{Urllib}.

Lemma startswith_cons (c : ascii) (p s : string) :
  startswith s (String c p) = true -> exists s', s = String c s'.
Proof.
  unfold startswith. destruct s as [|c' s']; simpl; [discriminate|].
  destruct (ascii_dec c c') as [<- | ?]; [eauto | discriminate].
Qed.

(** The branches of the loop body, by kind of [href]. *)
Lemma add_link_cases (base : string) (links : gset string) (href : string) :
  add_link base links href =
  if passes_through href then Ok ({[ href ]} ∪ links)
  else if is_anchor_only href then Ok links
  else bind (urljoin base href) (fun u => Ok ({[ u ]} ∪ links)).
Proof.
  unfold add_link, passes_through, is_anchor_only.
  destruct (startswith_any href ["http://"; "https://"]%string) eqn:Ehttp;
    [reflexivity|]. simpl orb.
  destruct (startswith href "/") eqn:Eslash.
  { apply startswith_cons in Eslash as [s' ->]. reflexivity. }
  unfold startswith_any. simpl existsb.
  destruct (startswith href "#"), (startswith href "mailto:"); reflexivity.
Qed.

Lemma add_links_spec (base : string) (hrefs : list string) :
  forall acc : gset string,
    (forall h, In h hrefs -> needs_base h = true -> is_ok (urljoin base h) = true) ->
    exists links, add_links base acc hrefs = Ok links
      /\ forall u, u ∈ links <-> u ∈ acc \/ exists h, In h hrefs /\ yields base h u.
Proof.
  induction hrefs as [|h hrefs IH]; intros acc Hok.
  - exists acc. split; [reflexivity|]. intros u. split; [auto|].
    intros [Hu | (h & [] & _)]. exact Hu.
  - simpl add_links. rewrite add_link_cases.
    assert (Hrest : forall h', In h' hrefs -> needs_base h' = true ->
                      is_ok (urljoin base h') = true).
    { intros h' Hin. apply Hok. right. exact Hin. }
    unfold yields, needs_base.
    destruct (passes_through h) eqn:Epass; [|destruct (is_anchor_only h) eqn:Eanchor];
      cbn [bind].
    + destruct (IH ({[ h ]} ∪ acc) Hrest) as (links & -> & Hlinks).
      exists links. split; [reflexivity|]. intros u. rewrite Hlinks.
      rewrite elem_of_union, elem_of_singleton. split.
      * intros [[-> | Hu] | (h' & Hin & Hy)]; [right | left | right]; eauto.
        -- exists h. split; [left; reflexivity|]. left. auto.
        -- exists h'. split; [right; exact Hin | exact Hy].
      * intros [Hu | (h' & [<- | Hin] & Hy)]; [left; right; exact Hu | | right; eauto].
        destruct Hy as [[_ ->] | [Hn _]]; [left; left; reflexivity|].
        rewrite Epass in Hn. discriminate.
    + destruct (IH acc Hrest) as (links & -> & Hlinks).
      exists links. split; [reflexivity|]. intros u. rewrite Hlinks. split.
      * intros [Hu | (h' & Hin & Hy)]; [left; exact Hu | right].
        exists h'. split; [right; exact Hin | exact Hy].
      * intros [Hu | (h' & [<- | Hin] & Hy)]; [left; exact Hu | | right; eauto].
        destruct Hy as [[Hp _] | [Hn _]]; [congruence|].
        rewrite Epass, Eanchor in Hn. discriminate.
    + assert (Hjoin : is_ok (urljoin base h) = true).
      { apply Hok; [left; reflexivity|]. unfold needs_base.
        rewrite Epass, Eanchor. reflexivity. }
      destruct (urljoin base h) as [u0|e] eqn:Eu; [|discriminate]. cbn [bind].
      destruct (IH ({[ u0 ]} ∪ acc) Hrest) as (links & -> & Hlinks).
      exists links. split; [reflexivity|]. intros u. rewrite Hlinks.
      rewrite elem_of_union, elem_of_singleton. split.
      * intros [[-> | Hu] | (h' & Hin & Hy)]; [right | left; exact Hu | right].
        -- exists h. split; [left; reflexivity|]. right.
           rewrite Epass, Eanchor. auto.
        -- exists h'. split; [right; exact Hin | exact Hy].
      * intros [Hu | (h' & [<- | Hin] & Hy)]; [left; right; exact Hu | | right; eauto].
        destruct Hy as [[Hp _] | [_ Hu]]; [congruence|].
        left. left. congruence.
Qed.

(** The [href]s the loop sees are those of the [a] elements below the
    soup that carry the attribute. *)
Lemma anchor_hrefs_spec (soup : node) (h : string) :
  In h (anchor_hrefs soup) <->
  exists attrs contents,
    In (Tag "a" attrs contents) (descendants soup) /\ attrs_get "href" attrs = Some h.
Proof.
  unfold anchor_hrefs, find_all_where.
  rewrite <- list_elem_of_In, list_elem_of_omap. split.
  - intros (a & Ha & Hh). apply list_elem_of_filter in Ha as [Hp Ha].
    destruct a as [| |name attrs contents]; try discriminate.
    apply Is_true_true, andb_true_iff in Hp as [Hname _].
    apply String.eqb_eq in Hname. subst name.
    exists attrs, contents. split; [apply list_elem_of_In, Ha | exact Hh].
  - intros (attrs & contents & Ha & Hh). exists (Tag "a" attrs contents).
    split; [|exact Hh]. apply list_elem_of_filter. split; [|apply list_elem_of_In, Ha].
    apply Is_true_true. simpl. rewrite Hh. reflexivity.
Qed.

(** C6, as amended.  Provided [urljoin] does not raise on the references
    that have to be resolved, the link extractor returns a list without
    duplicates; every URL in it comes from an [href] that does not start
    with ['#'], unchanged when the [href] starts with [http://],
    [https://] or [mailto:] and resolved against the base URL otherwise;
    every root-relative and every other relative [href] is in the list
    resolved against the base URL, and every [http(s)] or [mailto:]
    [href] is in the list as it is. *)
Theorem C6_extract_links (soup : node) (base_url : string) :
  (forall h, In h (anchor_hrefs soup) -> needs_base h = true ->
     is_ok (urljoin base_url h) = true) ->
  exists links, extract_links soup base_url = Ok links
    /\ NoDup links
    /\ (forall u, In u links ->
          exists h, In h (anchor_hrefs soup) /\ startswith h "#" = false /\
            ((passes_through h = true /\ u = h)
             \/ (passes_through h = false /\ urljoin base_url h = Ok u)))
    /\ (forall h, In h (anchor_hrefs soup) -> startswith h "/" = true ->
          exists u, urljoin base_url h = Ok u /\ In u links)
    /\ (forall h, In h (anchor_hrefs soup) ->
          startswith_any h ["http://"; "https://"; "/"; "#"; "mailto:"]%string = false ->
          exists u, urljoin base_url h = Ok u /\ In u links)
    /\ (forall h, In h (anchor_hrefs soup) ->
          startswith_any h ["http://"; "https://"]%string = true
          \/ startswith h "mailto:" = true ->
          In h links).
Proof.
  intros Hok.
  destruct (add_links_spec base_url (anchor_hrefs soup) ∅ Hok) as (set & Hset & Hmem).
  unfold extract_links. rewrite Hset. cbn [bind].
  exists (elements set). split; [reflexivity|].
  assert (Hin : forall u, In u (elements set) <->
                  exists h, In h (anchor_hrefs soup) /\ yields base_url h u).
  { intros u. rewrite <- list_elem_of_In, elem_of_elements, Hmem.
    split; [intros [Hu | Hu]; [set_solver | exact Hu] | auto]. }
  assert (Hneeds : forall h, In h (anchor_hrefs soup) -> needs_base h = true ->
                     exists u, urljoin base_url h = Ok u /\ In u (elements set)).
  { intros h Hh Hn. specialize (Hok h Hh Hn).
    destruct (urljoin base_url h) as [u|e] eqn:Eu; [|discriminate].
    exists u. split; [reflexivity|]. apply Hin. exists h. split; [exact Hh|].
    right. auto. }
  split; [apply NoDup_elements|]. split; [|split; [|split]].
  - intros u Hu. apply Hin in Hu as (h & Hh & Hy). exists h. split; [exact Hh|].
    destruct Hy as [[Hp ->] | [Hn Hu]].
    + split; [|left; auto]. unfold passes_through in Hp.
      destruct (startswith h "#") eqn:Ehash; [|reflexivity].
      apply startswith_cons in Ehash as [s' ->]. discriminate.
    + unfold needs_base, is_anchor_only in Hn.
      apply andb_true_iff in Hn as [Hp Ha].
      apply negb_true_iff in Hp, Ha. split; [exact Ha|]. right. auto.
  - intros h Hh Hslash. apply Hneeds; [exact Hh|].
    apply startswith_cons in Hslash as [s' ->]. reflexivity.
  - intros h Hh Hnone. apply Hneeds; [exact Hh|].
    unfold startswith_any in Hnone. simpl existsb in Hnone.
    unfold needs_base, passes_through, is_anchor_only, startswith_any. simpl existsb.
    destruct (startswith h "http://"), (startswith h "https://"),
      (startswith h "/"), (startswith h "#"), (startswith h "mailto:");
      try discriminate; reflexivity.
  - intros h Hh Hpass. apply Hin. exists h. split; [exact Hh|]. left.
    split; [|reflexivity]. unfold passes_through.
    destruct Hpass as [-> | ->]; [reflexivity | apply orb_true_r].
Qed.

End Links.

(** On the article of the scenario the only link is root-relative and
    comes back resolved against the base URL. *)
Lemma C6_witness :
  exists links,
    @extract_links Doubles.urllib_double (soup_of [Doubles.article]) "https://ex.com/"
      = Ok links
    /\ NoDup links /\ In "https://ex.com/x"%string links.
Proof.
  destruct (@C6_extract_links Doubles.urllib_double (soup_of [Doubles.article])
              "https://ex.com/" (fun h _ _ => eq_refl))
    as (links & Hlinks & Hnodup & _ & Hroot & _).
  exists links. split; [exact Hlinks|]. split; [exact Hnodup|].
  destruct (Hroot "/x"%string) as (u & Hu & Hin).
  - vm_compute. left. reflexivity.
  - reflexivity.
  - vm_compute in Hu. injection Hu as <-. exact Hin.
Defined.

(** The claim of C6 fails as it is worded: on a subtree with an
    absolute link, a mail address and one reference that [urljoin]
    rejects, the extractor raises and no list comes back, the absolute
    link and the mail address included. *)
Lemma C6_counterexample :
  ~ @link_extractor_as_specified Doubles.urllib_strict
      Doubles.anchors_with_malformed "https://ex.com/".
Proof.
  intros (links & Hlinks & _). vm_compute in Hlinks. discriminate.
Qed.

(** ** C8: the sanitizer without the main-content-only flag *)

Section Sanitizer.

Lemma decompose_all_tag (doomed : node -> bool) (name : string)
    (attrs : list (string * string)) (contents : list node) :
  decompose_all doomed (Tag name attrs contents) =
  Tag name attrs
    (flat_map (fun c => if doomed c then [] else [decompose_all doomed c]) contents).
Proof. reflexivity. Qed.

Lemma named_in_decompose_all (tags : list string) (doomed : node -> bool) (n : node) :
  named_in tags (decompose_all doomed n) = named_in tags n.
Proof. destruct n; reflexivity. Qed.

(** Two removal passes amount to one pass with both tests. *)
Lemma decompose_all_twice (p q : node -> bool) :
  (forall c, q (decompose_all p c) = q c) ->
  forall n, decompose_all q (decompose_all p n) = decompose_all (fun c => p c || q c) n.
Proof.
  intros Hq. induction n as [s | s | name attrs contents IH] using node_ind';
    try reflexivity.
  rewrite !decompose_all_tag. f_equal.
  induction IH as [|c cs Hc _ IHcs]; [reflexivity|].
  simpl. destruct (p c) eqn:Ep; simpl; [exact IHcs|].
  rewrite Hq. destruct (q c); simpl; [exact IHcs|]. rewrite Hc, IHcs. reflexivity.
Qed.

Lemma decompose_all_ext (p q : node -> bool) :
  (forall c, p c = q c) -> forall n, decompose_all p n = decompose_all q n.
Proof.
  intros Hpq. induction n as [s | s | name attrs contents IH] using node_ind';
    try reflexivity.
  rewrite !decompose_all_tag. f_equal.
  induction IH as [|c cs Hc _ IHcs]; [reflexivity|].
  simpl. rewrite Hpq, Hc, IHcs. reflexivity.
Qed.

(** With no element to remove the tree stays as it is. *)
Lemma decompose_all_none (doomed : node -> bool) (n : node) :
  (forall c, In c (descendants n) -> doomed c = false) -> decompose_all doomed n = n.
Proof.
  induction n as [s | s | name attrs contents IH] using node_ind'; try reflexivity.
  intros Hnone. rewrite decompose_all_tag. f_equal.
  assert (Hsub : forall c, In c contents ->
            doomed c = false /\ forall c', In c' (descendants c) -> doomed c' = false).
  { intros c Hc. split.
    - apply Hnone. simpl. apply in_flat_map. exists c. split; [exact Hc | left; reflexivity].
    - intros c' Hc'. apply Hnone. simpl. apply in_flat_map. exists c.
      split; [exact Hc | right; exact Hc']. }
  clear Hnone. induction IH as [|c cs Hc _ IHcs]; [reflexivity|].
  simpl. destruct (Hsub c (or_introl eq_refl)) as [-> Hbelow].
  rewrite (Hc Hbelow). simpl. f_equal. apply IHcs.
  intros c' Hc'. apply Hsub. right. exact Hc'.
Qed.

(** The loop over the tag names removes the elements named by any of them. *)
Lemma remove_tags_prune (tags : list string) :
  forall soup,
    fold_left (fun soup tag => decompose_all (is_tag_named tag) soup) tags soup
    = prune tags soup.
Proof.
  unfold prune. induction tags as [|tag tags IH] using rev_ind; intros soup.
  - simpl. symmetry. apply decompose_all_none. reflexivity.
  - rewrite fold_left_app. simpl. rewrite IH.
    rewrite decompose_all_twice by (intros c; destruct c; reflexivity).
    apply decompose_all_ext. intros c. unfold named_in.
    rewrite existsb_app. simpl. rewrite orb_false_r. reflexivity.
Qed.

(** A way down the tree that meets no doomed element is still there
    after the removal, and every way down the result comes from one. *)
Lemma chain_survives (doomed : node -> bool) (n : node) (cs : list node) :
  chain n cs -> Forall (fun c => doomed c = false) cs ->
  chain (decompose_all doomed n) (map (decompose_all doomed) cs).
Proof.
  induction 1 as [n | name attrs contents c cs Hc Hchain IH]; intros Hsafe.
  - constructor.
  - inversion Hsafe as [|? ? Hc_safe Hcs_safe]; subst.
    rewrite decompose_all_tag. simpl map. constructor; [|apply IH, Hcs_safe].
    apply in_flat_map. exists c. split; [exact Hc|]. rewrite Hc_safe. left. reflexivity.
Qed.

Lemma chain_origin (doomed : node -> bool) (cs' : list node) :
  forall n, chain (decompose_all doomed n) cs' ->
    exists cs, chain n cs /\ Forall (fun c => doomed c = false) cs
               /\ cs' = map (decompose_all doomed) cs.
Proof.
  induction cs' as [|c' cs' IH]; intros n Hchain.
  - exists []. repeat split; constructor.
  - destruct n as [s | s | name attrs contents]; try (inversion Hchain; fail).
    rewrite decompose_all_tag in Hchain.
    inversion Hchain as [|? ? ? ? ? Hc' Hrest]; subst.
    apply in_flat_map in Hc' as (c & Hc & Hin).
    destruct (doomed c) eqn:Ec; [destruct Hin|]. destruct Hin as [<- | []].
    destruct (IH c Hrest) as (cs & Hcs & Hsafe & ->).
    exists (c :: cs). split; [constructor; assumption|].
    split; [constructor; assumption | reflexivity].
Qed.

(** C8.  With the main-content-only flag off the sanitizer serialises
    the tree from which exactly the elements named script, style,
    noscript, meta, head or by an exclusion tag have been removed with
    their contents.  The catalog of extra removal selectors plays no
    part: the result is the same for every catalog and every selector
    semantics, so a node the catalog matches stays unless an unsafe
    element contains it or it is one.  Every way down the tree that
    passes no such element is still in the output, every way down the
    output comes from one, and a tree without such elements is left as
    it is. *)
Theorem C8_only_unsafe_tags_removed `{Bs4Lib} (soup : node)
    (exclude_tags extra_removals : list string) :
  let tags := unsafe_tags ++ exclude_tags in
  let sanitized := remove_unwanted_tree soup exclude_tags false extra_removals in
  remove_unwanted_elements soup exclude_tags false extra_removals
    = decode_contents sanitized
  /\ sanitized = prune tags soup
  /\ (forall catalog, remove_unwanted_tree soup exclude_tags false catalog = sanitized)
  /\ (forall cs, chain soup cs -> Forall (fun c => named_in tags c = false) cs ->
        chain sanitized (map (prune tags) cs))
  /\ (forall cs c sel, chain soup (cs ++ [c]) -> css_matches sel c = true ->
        Forall (fun c => named_in tags c = false) (cs ++ [c]) ->
        chain sanitized (map (prune tags) cs ++ [prune tags c]))
  /\ (forall cs', chain sanitized cs' ->
        exists cs, chain soup cs /\ Forall (fun c => named_in tags c = false) cs
                   /\ cs' = map (prune tags) cs)
  /\ ((forall c, In c (descendants soup) -> named_in tags c = false) ->
      sanitized = soup).
Proof.
  intros tags sanitized.
  assert (Hprune : sanitized = prune tags soup).
  { subst sanitized. unfold remove_unwanted_tree. apply remove_tags_prune. }
  split; [reflexivity|]. split; [exact Hprune|]. split; [reflexivity|].
  rewrite Hprune. unfold prune.
  split; [|split; [|split]].
  - intros cs Hchain Hsafe. apply chain_survives; assumption.
  - intros cs c sel Hchain _ Hsafe.
    pose proof (chain_survives (named_in tags) soup (cs ++ [c]) Hchain Hsafe) as Hc.
    rewrite map_app in Hc. exact Hc.
  - intros cs' Hchain. apply chain_origin. exact Hchain.
  - intros Hnone. apply decompose_all_none. exact Hnone.
Qed.

End Sanitizer.

(** ** C1, C2 and C9: the pipeline loop *)

Section Pipeline.
Context `{Bs4Lib} `{Html2Text}.

(** One iteration of the loop. *)
Lemma run_transformers_cons (t : registered) (rest : list registered) (m : meta)
    (d : document) (log : list log_record) (raw : pyval) :
  rawHtml d = Some raw ->
  run_transformers (t :: rest) m d log =
  match attempt t m (set_html raw d) with
  | Ok d' => run_transformers rest m d' log
  | Raise e => run_transformers rest m (set_html raw d) (log ++ [logged t e])
  end.
Proof. intros Hraw. simpl. rewrite Hraw. reflexivity. Qed.

Lemma run_transformers_app (ts1 ts2 : list registered) (m : meta) :
  forall (d : document) (log : list log_record),
    run_transformers (ts1 ++ ts2) m d log =
    match run_transformers ts1 m d log with
    | (log1, Ok d1) => run_transformers ts2 m d1 log1
    | (log1, Raise e) => (log1, Raise e)
    end.
Proof.
  induction ts1 as [|t ts1 IH]; intros d log; [reflexivity|].
  simpl. destruct (rawHtml d) as [raw|]; [|reflexivity].
  destruct (attempt t m (set_html raw d)); apply IH.
Qed.

(** The body of the [try] on a document whose raw markup is a non-empty
    string: the soup is parsed from the raw markup. *)
Lemma attempt_set_html (t : registered) (m : meta) (d : document) (raw : string) :
  rawHtml d = Some (PyStr raw) -> raw <> ""%string ->
  attempt t m (set_html (PyStr raw) d) =
  bind (BeautifulSoup raw) (fun soup => run t soup m (set_html (PyStr raw) d)).
Proof.
  intros Hraw Hne. unfold attempt. simpl rawHtml. rewrite Hraw. simpl truthy.
  apply String.eqb_neq in Hne. rewrite Hne. reflexivity.
Qed.

Lemma attempt_falsy (t : registered) (m : meta) (d : document) (raw : pyval) :
  rawHtml d = Some raw -> truthy raw = false ->
  attempt t m (set_html raw d) = Raise MissingInput.
Proof.
  intros Hraw Hfalsy. unfold attempt. simpl rawHtml. rewrite Hraw, Hfalsy. reflexivity.
Qed.

Lemma transformers_preserve_raw : Forall preserves_raw transformers.
Proof.
  unfold transformers. repeat constructor; intros soup m d d'; simpl;
    unfold _derive_html_from_raw_html, _derive_markdown_from_html,
      _derive_metadata_from_html, _derive_node_tree.
  - destruct (meta_options m); simpl; [|discriminate]. intros [= <-]. reflexivity.
  - destruct (html d) as [h|]; simpl; [|discriminate].
    destruct (markdown_of h); simpl; [|discriminate]. intros [= <-]. reflexivity.
  - intros [= <-]. reflexivity.
  - intros [= <-]. reflexivity.
Qed.

(** With ["rawHtml"] in the document the loop runs to its end, whatever
    the transformers do, and only adds to the log. *)
Lemma run_transformers_total (ts : list registered) (m : meta) :
  Forall preserves_raw ts ->
  forall (d : document) (log : list log_record) (raw : pyval),
    rawHtml d = Some raw ->
    exists log' d', run_transformers ts m d log = (log ++ log', Ok d')
                    /\ rawHtml d' = Some raw.
Proof.
  induction 1 as [|t ts Ht _ IH]; intros d log raw Hraw.
  - exists [], d. rewrite app_nil_r. auto.
  - rewrite (run_transformers_cons t ts m d log raw Hraw).
    destruct (attempt t m (set_html raw d)) as [d1|e] eqn:Ea.
    + assert (Hraw1 : rawHtml d1 = Some raw).
      { unfold attempt in Ea. simpl rawHtml in Ea. rewrite Hraw in Ea.
        destruct (truthy raw); simpl in Ea; [|discriminate].
        destruct (parse (set_html raw d)) as [soup|]; simpl in Ea; [|discriminate].
        rewrite (Ht _ _ _ _ Ea). exact Hraw. }
      apply IH. exact Hraw1.
    + destruct (IH (set_html raw d) (log ++ [logged t e]) raw Hraw) as (log' & d' & Hrun & Hd').
      exists (logged t e :: log'), d'. rewrite Hrun, <- app_assoc. auto.
Qed.

(** The log handed to the loop is only extended. *)
Lemma run_transformers_log (ts : list registered) (m : meta) :
  forall (d : document) (log : list log_record),
    run_transformers ts m d log
    = (log ++ fst (run_transformers ts m d []), snd (run_transformers ts m d [])).
Proof.
  induction ts as [|t ts IH]; intros d log.
  - simpl. rewrite app_nil_r. reflexivity.
  - simpl. destruct (rawHtml d) as [raw|]; simpl; [|rewrite app_nil_r; reflexivity].
    destruct (attempt t m (set_html raw d)) as [d1|e].
    + apply IH.
    + rewrite (IH _ (log ++ _)), (IH _ [_]). simpl.
      rewrite <- app_assoc. reflexivity.
Qed.

(** A field that no transformer of the list writes, and that the reset
    of ["html"] does not touch, comes out of the loop as it went in. *)
Lemma run_transformers_keeps {A} (f : document -> A) (ts : list registered) (m : meta) :
  (forall v d, f (set_html v d) = f d) ->
  Forall (keeps f) ts ->
  forall d log log' d',
    run_transformers ts m d log = (log', Ok d') -> f d' = f d.
Proof.
  intros Hreset. induction 1 as [|t ts Ht _ IH]; intros d log log' d' Hrun.
  - injection Hrun as _ <-. reflexivity.
  - simpl in Hrun. destruct (rawHtml d) as [raw|] eqn:Hraw; [|discriminate].
    destruct (attempt t m (set_html raw d)) as [d1|e] eqn:Ea.
    + rewrite (IH _ _ _ _ Hrun). unfold attempt in Ea.
      destruct (rawHtml (set_html raw d)); [|discriminate].
      destruct (negb (truthy _)); [discriminate|].
      destruct (parse (set_html raw d)) as [soup|]; simpl in Ea; [|discriminate].
      rewrite (Ht _ _ _ _ Ea). apply Hreset.
    + rewrite (IH _ _ _ _ Hrun). apply Hreset.
Qed.

(** After at least one iteration, or from a document whose ["html"] is
    the raw markup, transformers that do not write ["html"] leave the
    raw markup there. *)
Lemma run_transformers_html (ts : list registered) (m : meta) (raw : pyval) :
  Forall (keeps html) ts -> Forall preserves_raw ts ->
  forall d log log' d',
    rawHtml d = Some raw -> html d = Some raw ->
    run_transformers ts m d log = (log', Ok d') -> html d' = Some raw.
Proof.
  induction 1 as [|t ts Ht _ IH]; intros Hpres d log log' d' Hraw Hhtml Hrun.
  - injection Hrun as _ <-. exact Hhtml.
  - apply Forall_cons_iff in Hpres as [Hp Hpres].
    rewrite (run_transformers_cons t ts m d log raw Hraw) in Hrun.
    destruct (attempt t m (set_html raw d)) as [d1|e] eqn:Ea.
    + unfold attempt in Ea. simpl rawHtml in Ea. rewrite Hraw in Ea.
      destruct (negb (truthy raw)); [discriminate|].
      destruct (parse (set_html raw d)) as [soup|]; simpl in Ea; [|discriminate].
      apply (IH Hpres d1 log log' d'); [| |exact Hrun].
      * rewrite (Hp _ _ _ _ Ea). exact Hraw.
      * rewrite (Ht _ _ _ _ Ea). reflexivity.
    + apply (IH Hpres (set_html raw d) (log ++ [logged t e]) log' d');
        [exact Hraw | reflexivity | exact Hrun].
Qed.

Ltac solve_keeps :=
  repeat constructor; intros soup0 m0 d0 d0'; simpl;
  unfold _derive_html_from_raw_html, _derive_markdown_from_html,
    _derive_metadata_from_html, _derive_node_tree;
  repeat match goal with
         | |- context [getitem _ ?x] => destruct x eqn:?; simpl
         | |- context [markdown_of ?x] => destruct (markdown_of x); simpl
         end;
  try discriminate; intros [= <-]; simpl; congruence.

Ltac frame_of f Hrun :=
  match type of Hrun with
  | run_transformers ?ts ?m ?d ?log = (?log', Ok ?d') =>
      let K := fresh "K" in
      let F := fresh "F" in
      assert (K : Forall (keeps f) ts) by solve_keeps;
      pose proof (run_transformers_keeps f ts m (fun _ _ => eq_refl) K d log log' d' Hrun)
        as F;
      simpl in F
  end.

(** C9.  When a transformer of the pipeline raises, the loop logs its
    name with the exception, hands the document to the transformers
    that follow as the failing one received it, and runs all of them:
    the run ends normally with a document, in which the field the
    failing transformer writes is as it was before the run (for the
    sanitizer: ["html"] holds the raw markup). *)
Theorem C9_stage_failure_isolated (m : meta) (d d1 : document) (raw : pyval)
    (before after : list registered) (t : registered) (log1 : list log_record)
    (e : exn) :
  transformers = before ++ t :: after ->
  rawHtml d = Some raw ->
  run_transformers before m d [] = (log1, Ok d1) ->
  attempt t m (set_html raw d1) = Raise e ->
  execute_transformers m d
    = run_transformers after m (set_html raw d1) (log1 ++ [logged t e])
  /\ exists log2 d',
       execute_transformers m d = (log1 ++ logged t e :: log2, Ok d')
       /\ run_transformers after m (set_html raw d1) [] = (log2, Ok d')
       /\ (name t = "_derive_html_from_raw_html"%string -> html d' = Some raw)
       /\ (name t = "_derive_markdown_from_html"%string ->
           full_markdown d' = full_markdown d)
       /\ (name t = "_derive_metadata_from_html"%string -> metadata d' = metadata d)
       /\ (name t = "_derive_node_tree"%string -> node_tree d' = node_tree d).
Proof.
  intros Hsplit Hraw Hbefore Hraise.
  pose proof transformers_preserve_raw as Hpres. rewrite Hsplit in Hpres.
  apply Forall_app in Hpres as [Hpres_before Hpres_after].
  apply Forall_cons_iff in Hpres_after as [_ Hpres_after].
  destruct (run_transformers_total before m Hpres_before d [] raw Hraw)
    as (log' & d1' & Hrun & Hraw1).
  rewrite Hbefore in Hrun. injection Hrun as -> ->.
  assert (Hexec : execute_transformers m d
                  = run_transformers after m (set_html raw d1') (log' ++ [logged t e])).
  { unfold execute_transformers. rewrite Hsplit, run_transformers_app, Hbefore.
    rewrite (run_transformers_cons t after m d1' log' raw Hraw1), Hraise. reflexivity. }
  split; [exact Hexec|].
  destruct (run_transformers_total after m Hpres_after (set_html raw d1') [] raw Hraw1)
    as (log2 & d' & Hafter & _).
  exists log2, d'. split; [|split; [exact Hafter|]].
  { rewrite Hexec, run_transformers_log, Hafter. simpl.
    rewrite <- app_assoc. reflexivity. }
  unfold transformers in Hsplit.
  destruct before as [|b0 [|b1 [|b2 [|b3 before]]]]; simpl in Hsplit;
    injection Hsplit; intros; subst;
    try match goal with
        | Hnil : [] = ?b ++ _ :: _ |- _ => destruct b; discriminate Hnil
        end;
    simpl name;
    repeat match goal with |- _ /\ _ => split end;
    try (intros Hname; discriminate Hname); intros _.
  - match type of Hafter with
    | run_transformers ?ts _ _ _ = _ =>
        assert (K : Forall (keeps html) ts) by solve_keeps;
        apply (run_transformers_html ts m raw K Hpres_after
                 (set_html raw d1') [] _ d' Hraw1 eq_refl Hafter)
    end.
  - frame_of full_markdown Hafter. frame_of full_markdown Hbefore. congruence.
  - frame_of metadata Hafter. frame_of metadata Hbefore. congruence.
  - frame_of node_tree Hafter. frame_of node_tree Hbefore. congruence.
Qed.

(** C2.  On a document whose raw markup is [None] or the empty string
    the pipeline does not fail: each of the four iterations raises the
    error inside its own [try], which logs it, and the call returns the
    document, with ["html"] set to the raw markup.  No transformer runs.
    The claim asks for a failure of the pipeline. *)
Theorem C2_falsy_raw_markup_is_swallowed (m : meta) (d : document) (raw : pyval) :
  rawHtml d = Some raw ->
  truthy raw = false ->
  execute_transformers m d
    = (map (fun t => logged t MissingInput) transformers, Ok (set_html raw d)).
Proof.
  intros Hraw Hfalsy. unfold execute_transformers, transformers.
  assert (Hraw' : rawHtml (set_html raw d) = Some raw) by exact Hraw.
  rewrite (run_transformers_cons _ _ m d [] raw Hraw),
    (attempt_falsy _ m d raw Hraw Hfalsy).
  do 3 (rewrite (run_transformers_cons _ _ m (set_html raw d) _ raw Hraw');
        change (set_html raw (set_html raw d)) with (set_html raw d);
        rewrite (attempt_falsy _ m d raw Hraw Hfalsy)).
  reflexivity.
Qed.

(** Without the key ["rawHtml"] the first statement of the loop raises. *)
Lemma execute_transformers_missing_key (m : meta) (d : document) :
  rawHtml d = None -> execute_transformers m d = ([], Raise (KeyError "rawHtml")).
Proof. intros Hraw. unfold execute_transformers. simpl. rewrite Hraw. reflexivity. Qed.

(** C1.  On a document with non-empty raw markup that parses and
    renders, every iteration parses the raw markup: the markdown is
    rendered from the raw markup, metadata and node tree are read from
    the soup of the raw markup, and at the end ["html"] holds the raw
    markup again; the markup the sanitizer produced is overwritten at
    the start of the next iteration.  The claim asks for the later
    transformers to work on the sanitized markup. *)
Theorem C1_later_stages_read_raw_markup (m : meta) (opts : options) (d : document)
    (raw : string) (soup : node) (md : string) :
  rawHtml d = Some (PyStr raw) ->
  raw <> ""%string ->
  meta_options m = Some opts ->
  BeautifulSoup raw = Ok soup ->
  handle raw = Ok md ->
  exists d', execute_transformers m d = ([], Ok d')
    /\ html d' = Some (PyStr raw)
    /\ full_markdown d' = Some md
    /\ metadata d' = Some (default ∅ (metadata d) ∪ extract_metadata soup)
    /\ node_tree d' = Some (node_to_jsonl soup None "").
Proof.
  intros Hraw Hne Hopts Hparse Hmd.
  unfold execute_transformers, transformers.
  rewrite (run_transformers_cons _ _ m d [] _ Hraw), (attempt_set_html _ m d raw Hraw Hne).
  rewrite Hparse. cbn [bind run]. unfold _derive_html_from_raw_html.
  rewrite Hopts. cbn [bind getitem].
  match goal with |- context [run_transformers _ m ?d1 []] => set (doc1 := d1) end.
  assert (Hraw1 : rawHtml doc1 = Some (PyStr raw)) by exact Hraw.
  rewrite (run_transformers_cons _ _ m doc1 [] _ Hraw1),
    (attempt_set_html _ m doc1 raw Hraw1 Hne).
  rewrite Hparse. cbn [bind run]. unfold _derive_markdown_from_html.
  cbn [html set_html bind getitem markdown_of]. unfold html_to_markdown.
  rewrite Hmd. cbn [bind].
  match goal with |- context [run_transformers _ m ?d2 []] => set (doc2 := d2) end.
  assert (Hraw2 : rawHtml doc2 = Some (PyStr raw)) by exact Hraw.
  rewrite (run_transformers_cons _ _ m doc2 [] _ Hraw2),
    (attempt_set_html _ m doc2 raw Hraw2 Hne).
  rewrite Hparse. cbn [bind run]. unfold _derive_metadata_from_html.
  match goal with |- context [run_transformers _ m ?d3 []] => set (doc3 := d3) end.
  assert (Hraw3 : rawHtml doc3 = Some (PyStr raw)) by exact Hraw.
  rewrite (run_transformers_cons _ _ m doc3 [] _ Hraw3),
    (attempt_set_html _ m doc3 raw Hraw3 Hne).
  rewrite Hparse. cbn [bind run]. unfold _derive_node_tree.
  eexists. split; [reflexivity|]. repeat split.
Qed.

End Pipeline.

(** On a page with a script in front of a paragraph the sanitizer
    drops the script, and yet markdown and the final ["html"] are those
    of the raw markup. *)
Lemma C1_witness :
  let raw := "<script>x</script><p>hi</p>"%string in
  @remove_unwanted_elements Doubles.bs4_double Doubles.scripted [] false exclude_non_main_tags
    = "<p>hi</p>"%string
  /\ exists d',
       @execute_transformers Doubles.bs4_double Doubles.html2text_double
         (_prepare_meta "https://ex.com/") (new_document (PyStr raw))
         = ([], Ok d')
       /\ html d' = Some (PyStr raw)
       /\ full_markdown d' = Some raw.
Proof.
  intros raw. split; [reflexivity|].
  destruct (@C1_later_stages_read_raw_markup Doubles.bs4_double
              Doubles.html2text_double (_prepare_meta "https://ex.com/")
              {| excludeTags := None; onlyMainContent := None |}
              (new_document (PyStr raw)) raw Doubles.scripted raw
              eq_refl ltac:(discriminate) eq_refl eq_refl eq_refl)
    as (d' & Hrun & Hhtml & Hmd & _).
  exists d'. auto.
Defined.

(** The empty raw markup goes through the pipeline with four log lines. *)
Lemma C2_witness :
  @execute_transformers Doubles.bs4_double Doubles.html2text_double
         (_prepare_meta "https://ex.com/") (new_document (PyStr ""))
    = (map (fun t => logged t MissingInput)
         (@transformers Doubles.bs4_double Doubles.html2text_double),
       Ok (set_html (PyStr "") (new_document (PyStr "")))).
Proof.
  exact (@C2_falsy_raw_markup_is_swallowed Doubles.bs4_double
           Doubles.html2text_double (_prepare_meta "https://ex.com/")
           (new_document (PyStr "")) (PyStr "") eq_refl eq_refl).
Defined.

(** With a markdown renderer that raises, the second transformer is
    logged and the last two still produce metadata and node tree. *)
Lemma C9_witness :
  let raw := PyStr (Doubles.serialize_contents Doubles.page) in
  exists log2 d',
    @execute_transformers Doubles.bs4_double Doubles.html2text_failing
      (_prepare_meta "https://ex.com/") (new_document raw)
      = ([{| transformer_name := "_derive_markdown_from_html";
             cause := LibraryError "html2text" |}] ++ log2, Ok d')
    /\ full_markdown d' = None
    /\ node_tree d' = Some (node_to_jsonl Doubles.page None "").
Proof.
  intros raw.
  pose (m := _prepare_meta "https://ex.com/").
  pose (d1 := set_html
                (PyStr (@remove_unwanted_elements Doubles.bs4_double Doubles.page []
                          false exclude_non_main_tags))
                (set_html raw (new_document raw))).
  destruct (@C9_stage_failure_isolated Doubles.bs4_double Doubles.html2text_failing
              m (new_document raw) d1 raw
              [ {| name := "_derive_html_from_raw_html";
                   run := @_derive_html_from_raw_html Doubles.bs4_double |} ]
              [ {| name := "_derive_metadata_from_html";
                   run := _derive_metadata_from_html |};
                {| name := "_derive_node_tree"; run := _derive_node_tree |} ]
              {| name := "_derive_markdown_from_html";
                 run := @_derive_markdown_from_html Doubles.html2text_failing |}
              [] (LibraryError "html2text")
              eq_refl eq_refl eq_refl eq_refl)
    as (_ & log2 & d' & Hrun & Hafter & _).
  exists log2, d'. split; [exact Hrun|].
  vm_compute in Hafter. injection Hafter as <- <-. split; reflexivity.
Defined.

(** ** The document-level boundary *)

Section Service.
Context `{Bs4Lib} `{Html2Text} `{Urllib} `{Tiktoken} `{Lxml} `{ChatModel}.

(** A page without markup, or with a status other than 200, is turned
    into the error shape before the pipeline is entered. *)
Lemma fetch_main_content_rejects (fetched : ScrapingServiceOutput) (url : string) :
  truthy (fetched_html fetched) = false \/ status_code fetched <> Some 200%Z ->
  fetch_main_content fetched url
    = Error url "Failed to fetch content or bad status code" None.
Proof.
  intros [Hfalsy | Hstatus]; unfold fetch_main_content.
  - rewrite Hfalsy. reflexivity.
  - rewrite (bool_decide_eq_false_2 _ Hstatus), orb_true_r. reflexivity.
Qed.

End Service.

(** ** The scenario of the specification, on the test doubles *)

Section Scenario.
Import Doubles.

Let markup : string := serialize_contents page.

(** With the main-content-only flag the navigation goes. *)
Example scenario_sanitized_drops_nav :
  remove_unwanted_elements page [] true exclude_non_main_tags
    = serialize_contents (soup_of [Tag "html" [] [Tag "body" [] [article]]]).
Proof. reflexivity. Qed.

(** The node tree has no record of the navigation. *)
Example scenario_node_tree :
  node_to_jsonl page None ""
    = [ Json.dumps_data {| Json.path := "html/body/article/p"; Json.text := "Hello" |};
        Json.dumps_data {| Json.path := "html/body/article/p/a"; Json.text := "link" |} ].
Proof. reflexivity. Qed.

(** From the fetched page to the result: the article and its link. *)
Example scenario_result :
  fetch_main_content
    {| link := "https://ex.com/"; status_code := Some 200%Z;
       fetched_html := PyStr markup |} "https://ex.com/"
    = Content "https://ex.com/" (serialize article) (serialize article)
        ["https://ex.com/x"%string].
Proof. vm_compute. reflexivity. Qed.

End Scenario.

(** * Further properties of the code *)

(** ** The trimmer, again *)

Section TrimmerMore.
Context `{Tiktoken}.

Lemma fits_mono (b1 b2 : Z) (l : list string) :
  (b1 <= b2)%Z -> fits b1 l = true -> fits b2 l = true.
Proof. unfold fits. intros Hle Hfit. apply Z.leb_le. apply Z.leb_le in Hfit. lia. Qed.

(** Trimming is idempotent: a second call with the same budget on the
    list the first call left pops nothing and ends the same way. *)
Theorem trim_idempotent (S : list string) (b : option Z) :
  _trim_node_tree (fst (_trim_node_tree S b)) b = _trim_node_tree S b.
Proof.
  destruct (trim_trimmed S b) as [k Hk Hfit Hrest | Hnone]; simpl.
  - rewrite trim_unfold, Hfit. reflexivity.
  - rewrite trim_unfold. pose proof (Hnone 0 ltac:(lia)) as Hnil.
    rewrite take_0 in Hnil. rewrite Hnil. reflexivity.
Qed.

(** A larger effective budget never keeps fewer records, and never
    turns a success into a failure. *)
Theorem trim_monotone (S : list string) (b1 b2 : option Z) :
  (or_default b1 <= or_default b2)%Z ->
  length (fst (_trim_node_tree S b1)) <= length (fst (_trim_node_tree S b2))
  /\ (is_ok (snd (_trim_node_tree S b1)) = true ->
      is_ok (snd (_trim_node_tree S b2)) = true).
Proof.
  intros Hle.
  destruct (trim_trimmed S b1) as [k1 Hk1 Hfit1 Hrest1 | Hnone1]; simpl;
    [|split; [lia | discriminate]].
  pose proof (fits_mono _ _ _ Hle Hfit1) as Hfit12.
  destruct (trim_trimmed S b2) as [k2 Hk2 Hfit2 Hrest2 | Hnone2]; simpl.
  - split; [|reflexivity]. rewrite !length_take.
    destruct (le_lt_dec k1 k2) as [|Hlt]; [lia|].
    rewrite (Hrest2 k1 ltac:(lia)) in Hfit12. discriminate.
  - rewrite (Hnone2 k1 Hk1) in Hfit12. discriminate.
Qed.


End TrimmerMore.

Lemma trim_monotone_witness :
  let S := ["aaaa"; "bbbb"; "cccc"]%string in
  (or_default (Some 12%Z) <= or_default (Some 20%Z))%Z
  /\ length (fst (@_trim_node_tree Doubles.tiktoken_double S (Some 12%Z)))
     <= length (fst (@_trim_node_tree Doubles.tiktoken_double S (Some 20%Z))).
Proof.
  intros S.
  assert (Hle : (or_default (Some 12%Z) <= or_default (Some 20%Z))%Z)
    by (vm_compute; discriminate).
  split; [exact Hle|].
  exact (proj1 (@trim_monotone Doubles.tiktoken_double S (Some 12%Z) (Some 20%Z) Hle)).
Defined.


(** ** Cleaning the oracle's answer *)

Section CleanPath.

Lemma remove_fences_step (c : ascii) (s : string) :
  (exists s3, c = "`"%char /\ s = String "`" (String "`" s3)
              /\ remove_fences (String c s) = remove_fences s3)
  \/ (leading_ticks (String c s) < 3
      /\ remove_fences (String c s) = String c (remove_fences s)).
Proof.
  destruct (Ascii.eqb_spec c "`") as [-> | Hc].
  - destruct s as [|c2 s2]; [right; split; [simpl; lia | reflexivity]|].
    destruct (Ascii.eqb_spec c2 "`") as [-> | Hc2].
    + destruct s2 as [|c3 s3]; [right; split; [simpl; lia | reflexivity]|].
      destruct (Ascii.eqb_spec c3 "`") as [-> | Hc3].
      * left. exists s3. repeat split.
      * right. split.
        -- simpl. rewrite (proj2 (Ascii.eqb_neq _ _) Hc3). lia.
        -- destruct c3 as [[] [] [] [] [] [] [] []]; try reflexivity. contradiction.
    + right. split.
      * simpl. rewrite (proj2 (Ascii.eqb_neq _ _) Hc2). lia.
      * destruct c2 as [[] [] [] [] [] [] [] []]; try reflexivity. contradiction.
  - right. split.
    + simpl. rewrite (proj2 (Ascii.eqb_neq _ _) Hc). lia.
    + destruct c as [[] [] [] [] [] [] [] []]; try reflexivity. contradiction.
Qed.

Lemma remove_fences_leading (n : nat) :
  forall s, String.length s <= n ->
    leading_ticks (remove_fences s) = leading_ticks s mod 3
    /\ has_fence (remove_fences s) = false.
Proof.
  induction n as [|n IH]; intros s Hlen.
  - destruct s; [split; reflexivity | simpl in Hlen; lia].
  - destruct s as [|c s]; [split; reflexivity|]. simpl in Hlen.
    destruct (remove_fences_step c s) as [(s3 & -> & -> & ->) | [Hlt ->]].
    + simpl in Hlen. destruct (IH s3 ltac:(lia)) as [Hlead Hfence].
      split; [|exact Hfence]. rewrite Hlead.
      change (leading_ticks (String "`" (String "`" (String "`" s3))))
        with (3 + leading_ticks s3).
      rewrite <- (Nat.Div0.add_mod_idemp_l 3). reflexivity.
    + destruct (IH s ltac:(lia)) as [Hlead Hfence].
      assert (Hhead : leading_ticks (String c (remove_fences s))
                      = leading_ticks (String c s)).
      { revert Hlt. simpl. destruct (Ascii.eqb c "`"); [|reflexivity].
        intros Hlt. rewrite Hlead, Nat.mod_small by lia. reflexivity. }
      split.
      * rewrite Hhead, Nat.mod_small by lia. reflexivity.
      * cbn [has_fence]. rewrite Hhead, Hfence, orb_false_r.
        apply Nat.leb_gt. exact Hlt.
Qed.

Lemma has_fence_app (pre post : string) :
  has_fence (pre +:+ "```" +:+ post) = true.
Proof.
  induction pre as [|c pre IH]; [reflexivity|].
  change (has_fence (String c (pre +:+ "```" +:+ post)) = true).
  cbn [has_fence]. rewrite IH. apply orb_true_r.
Qed.

Lemma lstrip_by_suffix (f : ascii -> bool) (s : string) :
  exists pre, s = (pre +:+ lstrip_by f s)%string.
Proof.
  induction s as [|c s [pre IH]]; [exists ""%string; reflexivity|].
  simpl. destruct (f c).
  - exists (String c pre).
    change (String c s = String c (pre +:+ lstrip_by f s)). f_equal. exact IH.
  - exists ""%string. reflexivity.
Qed.

Lemma rstrip_by_prefix (f : ascii -> bool) (s : string) :
  exists post, s = (rstrip_by f s +:+ post)%string.
Proof.
  induction s as [|c s [post IH]]; [exists ""%string; reflexivity|].
  simpl. destruct (rstrip_by f s) as [|c' r] eqn:Er.
  - destruct (f c).
    + exists (String c s). reflexivity.
    + exists s. reflexivity.
  - exists post.
    change (String c s = String c (String c' r +:+ post)). f_equal. exact IH.
Qed.

Lemma append_assoc (a b c : string) : ((a +:+ b) +:+ c = a +:+ (b +:+ c))%string.
Proof.
  induction a as [|x a IH]; [reflexivity|].
  change (String x ((a +:+ b) +:+ c) = String x (a +:+ (b +:+ c)))%string.
  f_equal. exact IH.
Qed.

(** The cleaned path holds no code fence, wherever the fences stood in
    the answer. *)
Theorem clean_result_path_no_fence (result pre post : string) :
  _clean_result_path result <> (pre +:+ "```" +:+ post)%string.
Proof.
  unfold _clean_result_path, strip. intros Heq.
  destruct (lstrip_by_suffix isspace (remove_fences result)) as [a Ha].
  destruct (rstrip_by_prefix isspace (lstrip_by isspace (remove_fences result)))
    as [b Hb].
  rewrite Hb, Heq in Ha.
  destruct (remove_fences_leading _ result (Nat.le_refl _)) as [_ Hfence].
  assert (Hsplit : remove_fences result
                   = ((a +:+ pre) +:+ "```" +:+ (post +:+ b))%string).
  { rewrite Ha at 1. rewrite !append_assoc. reflexivity. }
  rewrite Hsplit, has_fence_app in Hfence. discriminate.
Qed.

Lemma has_fence_split (s : string) :
  has_fence s = true -> exists pre post, s = (pre +:+ "```" +:+ post)%string.
Proof.
  induction s as [|c s IH]; [discriminate|]. cbn [has_fence].
  intros Hf. apply orb_true_iff in Hf as [Hlead | Hrest].
  - apply Nat.leb_le in Hlead. exists ""%string.
    destruct (remove_fences_step c s) as [(s3 & -> & -> & _) | [Hlt _]]; [|lia].
    exists s3. reflexivity.
  - destruct (IH Hrest) as (pre & post & ->). exists (String c pre), post. reflexivity.
Qed.

Lemma has_fence_inside (a x b : string) :
  has_fence ((a +:+ x) +:+ b) = false -> has_fence x = false.
Proof.
  intros Hwhole. destruct (has_fence x) eqn:Hx; [|reflexivity].
  destruct (has_fence_split x Hx) as (pre & post & ->).
  assert (Hsplit : ((a +:+ pre +:+ "```" +:+ post) +:+ b
                    = (a +:+ pre) +:+ "```" +:+ (post +:+ b))%string)
    by (rewrite !append_assoc; reflexivity).
  rewrite Hsplit, has_fence_app in Hwhole. discriminate.
Qed.

Lemma remove_fences_id (s : string) : has_fence s = false -> remove_fences s = s.
Proof.
  induction s as [|c s IH]; [reflexivity|]. cbn [has_fence].
  intros Hf. apply orb_false_iff in Hf as [Hlead Hrest]. apply Nat.leb_gt in Hlead.
  destruct (remove_fences_step c s) as [(s3 & -> & -> & _) | [_ ->]].
  - simpl in Hlead. lia.
  - rewrite (IH Hrest). reflexivity.
Qed.

Lemma lstrip_by_head (f : ascii -> bool) (s : string) (c : ascii) (t : string) :
  lstrip_by f s = String c t -> f c = false.
Proof.
  induction s as [|c' s IH]; [discriminate|]. simpl.
  destruct (f c') eqn:E; [exact IH|]. intros [= <- _]. exact E.
Qed.

Lemma rstrip_by_idem (f : ascii -> bool) (s : string) :
  rstrip_by f (rstrip_by f s) = rstrip_by f s.
Proof.
  induction s as [|c s IH]; [reflexivity|]. simpl.
  destruct (rstrip_by f s) as [|c' r] eqn:Er.
  - destruct (f c) eqn:E; [reflexivity|]. simpl. rewrite E. reflexivity.
  - cbn [rstrip_by]. cbn [rstrip_by] in IH. rewrite IH. reflexivity.
Qed.

Lemma rstrip_by_head (f : ascii -> bool) (s : string) :
  (forall c t, s = String c t -> f c = false) ->
  forall c t, rstrip_by f s = String c t -> f c = false.
Proof.
  destruct s as [|c0 s]; [discriminate|]. intros Hhead c t. simpl.
  destruct (rstrip_by f s).
  - destruct (f c0) eqn:E; [discriminate|]. intros [= <- _]. exact E.
  - intros [= <- _]. apply (Hhead c0 s eq_refl).
Qed.

Lemma strip_idem (s : string) : strip (strip s) = strip s.
Proof.
  unfold strip.
  assert (Hl : lstrip_by isspace (rstrip_by isspace (lstrip_by isspace s))
               = rstrip_by isspace (lstrip_by isspace s)).
  { pose proof (rstrip_by_head isspace (lstrip_by isspace s)
                  (fun c t => lstrip_by_head isspace s c t)) as Hhead.
    destruct (rstrip_by isspace (lstrip_by isspace s)) as [|c t]; [reflexivity|].
    simpl. rewrite (Hhead c t eq_refl). reflexivity. }
  rewrite Hl. apply rstrip_by_idem.
Qed.

(** Cleaning an answer that is already clean changes nothing, and the
    cleaned path has no white space around it. *)
Theorem clean_result_path_idempotent (result : string) :
  _clean_result_path (_clean_result_path result) = _clean_result_path result
  /\ strip (_clean_result_path result) = _clean_result_path result.
Proof.
  assert (Hstrip : strip (_clean_result_path result) = _clean_result_path result)
    by apply strip_idem.
  split; [|exact Hstrip].
  unfold _clean_result_path at 1. rewrite remove_fences_id; [exact Hstrip|].
  unfold _clean_result_path, strip.
  destruct (lstrip_by_suffix isspace (remove_fences result)) as [a Ha].
  destruct (rstrip_by_prefix isspace (lstrip_by isspace (remove_fences result)))
    as [b Hb].
  destruct (remove_fences_leading _ result (Nat.le_refl _)) as [_ Hfence].
  apply (has_fence_inside a _ b).
  rewrite append_assoc, <- Hb, <- Ha. exact Hfence.
Qed.

End CleanPath.

(** ** The link extractor, again *)

Section LinksMore.
Context `{Urllib}.

Lemma add_links_ok (base : string) (hrefs : list string) :
  forall (acc links : gset string),
    add_links base acc hrefs = Ok links ->
    forall h, In h hrefs -> needs_base h = true -> is_ok (urljoin base h) = true.
Proof.
  induction hrefs as [|h0 hrefs IH]; intros acc links Hok h Hin Hneeds; [destruct Hin|].
  simpl add_links in Hok. rewrite add_link_cases in Hok.
  destruct Hin as [<- | Hin].
  - unfold needs_base in Hneeds. apply andb_true_iff in Hneeds as [Hp Ha].
    apply negb_true_iff in Hp, Ha. rewrite Hp, Ha in Hok.
    destruct (urljoin base h0); [reflexivity | discriminate].
  - destruct (passes_through h0); [|destruct (is_anchor_only h0)]; cbn [bind] in Hok;
      try (eapply IH; eassumption).
    destruct (urljoin base h0); cbn [bind] in Hok; [|discriminate].
    eapply IH; eassumption.
Qed.

Lemma add_links_raises (base : string) (e : exn) (hrefs : list string) :
  forall acc : gset string,
    add_links base acc hrefs = Raise e <->
    exists pre h post,
      hrefs = pre ++ h :: post
      /\ (forall h', In h' pre -> needs_base h' = true ->
            is_ok (urljoin base h') = true)
      /\ needs_base h = true /\ urljoin base h = Raise e.
Proof.
  induction hrefs as [|h0 hrefs IH]; intros acc.
  - split; [discriminate|]. intros (pre & h & post & Heq & _). destruct pre; discriminate.
  - simpl add_links. rewrite add_link_cases.
    assert (Hskip : forall acc',
              (needs_base h0 = true -> is_ok (urljoin base h0) = true) ->
              add_links base acc' hrefs = Raise e <->
              exists pre h post,
                h0 :: hrefs = pre ++ h :: post
                /\ (forall h', In h' pre -> needs_base h' = true ->
                      is_ok (urljoin base h') = true)
                /\ needs_base h = true /\ urljoin base h = Raise e).
    { intros acc' Hh0. rewrite IH. split.
      - intros (pre & h & post & -> & Hpre & Hn & Hr).
        exists (h0 :: pre), h, post. repeat split; auto.
        intros h' [<- | Hin]; auto.
      - intros (pre & h & post & Heq & Hpre & Hn & Hr).
        destruct pre as [|p pre]; simpl in Heq; injection Heq as <- ->.
        + specialize (Hh0 Hn). rewrite Hr in Hh0. discriminate.
        + exists pre, h, post. repeat split; auto.
          intros h' Hin. apply Hpre. right. exact Hin. }
    unfold needs_base in Hskip |- *.
    destruct (passes_through h0) eqn:Ep; [|destruct (is_anchor_only h0) eqn:Ea];
      cbn [bind]; try (apply Hskip; discriminate).
    destruct (urljoin base h0) as [u|e0] eqn:Eu; cbn [bind].
    + apply Hskip. reflexivity.
    + split.
      * intros [= <-]. exists [], h0, hrefs.
        split; [reflexivity|]. split; [intros h' []|].
        split; [rewrite Ep, Ea; reflexivity | exact Eu].
      * intros (pre & h & post & Heq & Hpre & Hn & Hr).
        destruct pre as [|p pre]; simpl in Heq; injection Heq as <- ->.
        -- congruence.
        -- specialize (Hpre h0 (or_introl eq_refl)).
           rewrite Ep, Ea, Eu in Hpre. specialize (Hpre eq_refl). discriminate.
Qed.

(** The extractor raises exactly when [urljoin] raises on a reference
    that has to be resolved, and it raises the exception of the first
    such reference in document order: one malformed relative link
    loses all the links of the page. *)
Theorem extract_links_raises (soup : node) (base_url : string) (e : exn) :
  extract_links soup base_url = Raise e <->
  exists pre h post,
    anchor_hrefs soup = pre ++ h :: post
    /\ (forall h', In h' pre -> needs_base h' = true ->
          is_ok (urljoin base_url h') = true)
    /\ needs_base h = true /\ urljoin base_url h = Raise e.
Proof.
  rewrite <- (add_links_raises base_url e (anchor_hrefs soup) ∅).
  unfold extract_links. destruct (add_links base_url ∅ (anchor_hrefs soup)); simpl.
  - split; discriminate.
  - split; intros [= ->]; reflexivity.
Qed.

(** The extractor returns the empty list exactly when every [href] of
    the tree is an in-page anchor (or there is none). *)
Theorem extract_links_empty (soup : node) (base_url : string) :
  extract_links soup base_url = Ok [] <->
  forall h, In h (anchor_hrefs soup) -> startswith h "#" = true.
Proof.
  assert (Hexcl : forall h, is_anchor_only h = true -> passes_through h = false).
  { intros h Ha. apply startswith_cons in Ha as [s' ->]. reflexivity. }
  split.
  - intros Hempty h Hh.
    unfold extract_links in Hempty.
    destruct (add_links base_url ∅ (anchor_hrefs soup)) as [set|] eqn:Eset;
      [|discriminate]. cbn [bind] in Hempty. injection Hempty as Hempty.
    pose proof (add_links_ok _ _ _ _ Eset) as Hok.
    destruct (add_links_spec base_url (anchor_hrefs soup) ∅ Hok) as (set' & Eset' & Hmem).
    rewrite Eset in Eset'. injection Eset' as <-.
    destruct (startswith h "#") eqn:Ea; [reflexivity|]. exfalso.
    assert (Hyield : exists u, yields base_url h u).
    { unfold yields, needs_base, is_anchor_only. rewrite Ea.
      destruct (passes_through h) eqn:Ep; [exists h; left; auto|].
      specialize (Hok h Hh). unfold needs_base, is_anchor_only in Hok.
      rewrite Ep, Ea in Hok. specialize (Hok eq_refl).
      destruct (urljoin base_url h) as [u|]; [|discriminate]. exists u. right. auto. }
    destruct Hyield as [u Hu].
    assert (Hin : u ∈ elements set).
    { apply elem_of_elements, Hmem. right. exists h. auto. }
    rewrite Hempty in Hin. inversion Hin.
  - intros Hall.
    destruct (add_links_spec base_url (anchor_hrefs soup) ∅) as (set & Eset & Hmem).
    { intros h Hh Hn. specialize (Hall h Hh). unfold needs_base, is_anchor_only in Hn.
      rewrite Hall, andb_false_r in Hn. discriminate. }
    unfold extract_links. rewrite Eset. cbn [bind]. f_equal.
    assert (Hnone : set = ∅).
    { apply set_eq. intros u. rewrite Hmem. split; [|set_solver].
      intros [Hu | (h & Hh & Hy)]; [exact Hu|]. exfalso.
      specialize (Hall h Hh). destruct Hy as [[Hp _] | [Hn _]].
      - rewrite (Hexcl h Hall) in Hp. discriminate.
      - unfold needs_base, is_anchor_only in Hn. rewrite Hall, andb_false_r in Hn.
        discriminate. }
    rewrite Hnone. apply elements_empty.
Qed.

End LinksMore.

(** ** The sanitizer, again *)

Section SanitizerMore.
Context `{Bs4Lib}.

(** What is below a tree after a removal pass was below it before, was
    not removed, and has itself gone through the pass. *)
Lemma descendants_decompose_all (doomed : node -> bool) (n c' : node) :
  In c' (descendants (decompose_all doomed n)) ->
  exists c, In c (descendants n) /\ doomed c = false /\ c' = decompose_all doomed c.
Proof.
  revert c'. induction n as [s | s | name attrs contents IH] using node_ind';
    intros c' Hc'; try (destruct Hc'; fail).
  rewrite decompose_all_tag in Hc'. simpl descendants in Hc' |- *.
  apply in_flat_map in Hc' as (x & Hx & Hc').
  apply in_flat_map in Hx as (c & Hc & Hx).
  destruct (doomed c) eqn:Ec; [destruct Hx|]. destruct Hx as [<- | []].
  destruct Hc' as [<- | Hbelow].
  - exists c. split; [|auto]. apply in_flat_map. exists c. split; [exact Hc | left; reflexivity].
  - rewrite List.Forall_forall in IH.
    destruct (IH c Hc c' Hbelow) as (d & Hd & Hdoomed & ->).
    exists d. split; [|auto]. apply in_flat_map. exists c. split; [exact Hc | right; exact Hd].
Qed.

(** A test that a removal pass does not change stays false on all the
    tree when it was false before. *)
Lemma decompose_all_keeps_clean (P doomed : node -> bool) (n : node) :
  (forall c, P (decompose_all doomed c) = P c) ->
  (forall c, In c (descendants n) -> P c = false) ->
  forall c', In c' (descendants (decompose_all doomed n)) -> P c' = false.
Proof.
  intros Hinv Hclean c' Hc'.
  apply descendants_decompose_all in Hc' as (c & Hc & _ & ->).
  rewrite Hinv. apply Hclean, Hc.
Qed.

Lemma css_pass_keeps_names (tags : list string) (sels : list string) :
  forall n,
    (forall c, In c (descendants n) -> named_in tags c = false) ->
    forall c', In c' (descendants
                        (fold_left (fun soup tag =>
                                      decompose_all (fun n => is_tag n && css_matches tag n) soup)
                           sels n)) ->
               named_in tags c' = false.
Proof.
  induction sels as [|sel sels IH]; intros n Hclean; [exact Hclean|].
  simpl. apply IH. apply decompose_all_keeps_clean; [|exact Hclean].
  intros c. apply named_in_decompose_all.
Qed.

(** Whatever the flag, the catalog and the selector semantics, the
    sanitized tree holds no element named script, style, noscript, meta
    or head, nor one named by an exclusion tag. *)
Theorem sanitized_has_no_unsafe_tag (soup : node) (exclude_tags : list string)
    (only_main_content : bool) (extra_removals : list string) (c : node) :
  In c (descendants
          (remove_unwanted_tree soup exclude_tags only_main_content extra_removals)) ->
  named_in (unsafe_tags ++ exclude_tags) c = false.
Proof.
  unfold remove_unwanted_tree. rewrite remove_tags_prune.
  assert (Hclean : forall c, In c (descendants (prune (unsafe_tags ++ exclude_tags) soup)) ->
                     named_in (unsafe_tags ++ exclude_tags) c = false).
  { intros c0 Hc0. apply descendants_decompose_all in Hc0 as (c1 & _ & Hsafe & ->).
    rewrite named_in_decompose_all. exact Hsafe. }
  destruct only_main_content; [|apply Hclean].
  apply css_pass_keeps_names. exact Hclean.
Qed.

(** Sanitizing a sanitized tree again changes nothing (flag off). *)
Theorem sanitize_idempotent (soup : node) (exclude_tags catalog : list string) :
  let once := remove_unwanted_tree soup exclude_tags false catalog in
  remove_unwanted_tree once exclude_tags false catalog = once.
Proof.
  intros once. subst once. unfold remove_unwanted_tree.
  rewrite !remove_tags_prune. unfold prune.
  rewrite decompose_all_twice by apply named_in_decompose_all.
  apply decompose_all_ext. intros c. apply orb_diag.
Qed.

(** The order and the repetitions of the exclusion tags do not matter. *)
Theorem sanitize_exclusion_order (soup : node) (tags1 tags2 catalog1 catalog2 : list string) :
  (forall tag, In tag tags1 <-> In tag tags2) ->
  remove_unwanted_tree soup tags1 false catalog1
  = remove_unwanted_tree soup tags2 false catalog2.
Proof.
  intros Hsame. unfold remove_unwanted_tree. rewrite !remove_tags_prune.
  apply decompose_all_ext. intros c. unfold named_in.
  apply eq_true_iff_eq. rewrite !existsb_exists.
  split; intros (tag & Hin & Htag); exists tag; (split; [|exact Htag]);
    apply in_app_iff; apply in_app_iff in Hin as [Hin | Hin]; auto;
    right; apply Hsame; exact Hin.
Qed.

(** When a selector is decided by the element alone, the flag on leaves
    no element matched by a selector of the catalog. *)
Theorem sanitized_has_no_catalog_match (soup : node) (exclude_tags catalog : list string)
    (sel : string) (c : node) :
  (forall s name attrs cs cs',
     css_matches s (Tag name attrs cs) = css_matches s (Tag name attrs cs')) ->
  In sel catalog ->
  In c (descendants (remove_unwanted_tree soup exclude_tags true catalog)) ->
  is_tag c && css_matches sel c = false.
Proof.
  intros Hlocal Hsel. unfold remove_unwanted_tree.
  set (start := fold_left _ (unsafe_tags ++ exclude_tags) soup). clearbody start.
  assert (Hinv : forall s doomed x,
            is_tag (decompose_all doomed x) && css_matches s (decompose_all doomed x)
            = is_tag x && css_matches s x).
  { intros s doomed x. destruct x as [| |name attrs cs]; try reflexivity.
    rewrite decompose_all_tag. simpl. apply Hlocal. }
  revert start c. induction catalog as [|s catalog IH] using rev_ind;
    intros start c Hc; [destruct Hsel|].
  rewrite fold_left_app in Hc. simpl in Hc.
  apply in_app_iff in Hsel as [Hsel | [<- | []]].
  - apply descendants_decompose_all in Hc as (c0 & Hc0 & _ & ->).
    rewrite Hinv. apply (IH Hsel start c0 Hc0).
  - apply descendants_decompose_all in Hc as (c0 & _ & Hsafe & ->).
    rewrite Hinv. exact Hsafe.
Qed.

(** Through the service the sanitizer runs with the flag off and no
    exclusion tag: only script, style, noscript, meta and head go, and
    the catalog of the pipeline is never applied. *)
Theorem service_sanitizer_ignores_catalog (url : string) (soup : node) (d : document) :
  _derive_html_from_raw_html soup (_prepare_meta url) d
  = Ok (set_html (PyStr (decode_contents (prune unsafe_tags soup))) d).
Proof.
  unfold _derive_html_from_raw_html.
  cbn [_prepare_meta meta_options getitem bind excludeTags onlyMainContent from_option].
  unfold remove_unwanted_elements, remove_unwanted_tree.
  rewrite remove_tags_prune, app_nil_r. reflexivity.
Qed.

End SanitizerMore.

(** ** The pipeline, again *)

Section PipelineMore.
Context `{Bs4Lib} `{Html2Text}.

Ltac pipeline_step raw Hraw Hne :=
  match goal with
  | |- context [run_transformers (?t :: ?rest) ?m ?d0 ?log] =>
      rewrite (run_transformers_cons t rest m d0 log (PyStr raw) Hraw),
        (attempt_set_html t m d0 raw Hraw Hne)
  end.

(** The pipeline in closed form. *)
Lemma execute_transformers_outcome (m : meta) (d : document) (raw : string) :
  rawHtml d = Some (PyStr raw) -> raw <> ""%string ->
  execute_transformers m d
  = (fst (pipeline_outcome m d raw), Ok (snd (pipeline_outcome m d raw))).
Proof.
  intros Hraw Hne. unfold execute_transformers, transformers, pipeline_outcome.
  destruct (BeautifulSoup raw) as [soup|e] eqn:Eparse.
  - pipeline_step raw Hraw Hne. rewrite Eparse. cbn [bind run].
    unfold _derive_html_from_raw_html.
    destruct (meta_options m) as [opts|]; cbn [bind getitem];
      pipeline_step raw Hraw Hne; rewrite Eparse; cbn [bind run];
      unfold _derive_markdown_from_html;
      cbn [html set_html bind getitem markdown_of]; unfold html_to_markdown;
      destruct (handle raw) as [md|e]; cbn [bind];
      pipeline_step raw Hraw Hne; rewrite Eparse; cbn [bind run];
      unfold _derive_metadata_from_html;
      pipeline_step raw Hraw Hne; rewrite Eparse; cbn [bind run];
      unfold _derive_node_tree; reflexivity.
  - do 4 (pipeline_step raw Hraw Hne; rewrite Eparse; cbn [bind]).
    reflexivity.
Qed.

Lemma execute_transformers_falsy (m : meta) (d : document) (raw : pyval) :
  rawHtml d = Some raw -> truthy raw = false ->
  execute_transformers m d
  = (map (fun t => logged t MissingInput) transformers, Ok (set_html raw d)).
Proof.
  intros Hraw Hfalsy. unfold execute_transformers, transformers.
  do 4 (match goal with
        | |- context [run_transformers (?t :: ?rest) ?m ?d0 ?log] =>
            rewrite (run_transformers_cons t rest m d0 log raw Hraw);
            change (set_html raw d0) with (set_html raw d);
            rewrite (attempt_falsy t m d raw Hraw Hfalsy)
        end).
  reflexivity.
Qed.

Lemma truthy_cases (raw : pyval) :
  truthy raw = false \/ exists s, raw = PyStr s /\ s <> ""%string.
Proof.
  destruct raw as [|s]; [left; reflexivity|]. simpl.
  destruct (String.eqb_spec s ""); [left | right; exists s]; auto.
Qed.

(** Running the pipeline on the document it returned gives the same
    document and the same log: nothing accumulates over runs. *)
Theorem execute_transformers_idempotent (m : meta) (d d' : document)
    (log : list log_record) :
  execute_transformers m d = (log, Ok d') ->
  execute_transformers m d' = (log, Ok d').
Proof.
  intros Hrun. destruct (rawHtml d) as [raw|] eqn:Hraw.
  2:{ rewrite (execute_transformers_missing_key m d Hraw) in Hrun. discriminate. }
  destruct (truthy_cases raw) as [Hfalsy | (s & -> & Hne)].
  - rewrite (execute_transformers_falsy m d raw Hraw Hfalsy) in Hrun.
    injection Hrun as <- <-.
    apply (execute_transformers_falsy m (set_html raw d) raw Hraw Hfalsy).
  - rewrite (execute_transformers_outcome m d s Hraw Hne) in Hrun.
    injection Hrun as <- <-.
    assert (Hraw' : rawHtml (snd (pipeline_outcome m d s)) = Some (PyStr s)).
    { unfold pipeline_outcome. destruct (BeautifulSoup s); exact Hraw. }
    rewrite (execute_transformers_outcome m _ s Hraw' Hne).
    assert (Hsame : pipeline_outcome m (snd (pipeline_outcome m d s)) s
                    = pipeline_outcome m d s).
    { unfold pipeline_outcome. destruct (BeautifulSoup s) as [soup|e]; [|reflexivity].
      cbn [snd metadata full_markdown rawHtml mc_path mc_html mc_markdown mc_links
             from_option id].
      rewrite <- (assoc_L (∪)), (idemp_L (∪) (extract_metadata soup)).
      destruct (handle s); reflexivity. }
    rewrite Hsame. reflexivity.
Qed.

(** With ["rawHtml"] in the document the pipeline always returns a
    document: ["rawHtml"] and the four main-content fields are as they
    were, ["html"] holds the raw markup, and at most four lines are
    logged. *)
Theorem execute_transformers_frame (m : meta) (d : document) (raw : pyval) :
  rawHtml d = Some raw ->
  exists log d',
    execute_transformers m d = (log, Ok d')
    /\ rawHtml d' = Some raw /\ html d' = Some raw
    /\ mc_path d' = mc_path d /\ mc_html d' = mc_html d
    /\ mc_markdown d' = mc_markdown d /\ mc_links d' = mc_links d
    /\ length log <= 4.
Proof.
  intros Hraw. destruct (truthy_cases raw) as [Hfalsy | (s & -> & Hne)].
  - rewrite (execute_transformers_falsy m d raw Hraw Hfalsy).
    eexists _, _. split; [reflexivity|]. repeat split; auto.
  - rewrite (execute_transformers_outcome m d s Hraw Hne).
    eexists _, _. split; [reflexivity|]. unfold pipeline_outcome.
    destruct (BeautifulSoup s) as [soup|e]; [|repeat split; auto].
    destruct (meta_options m), (handle s); repeat split; simpl; auto; lia.
Qed.

End PipelineMore.

(** ** Extraction and the service, again *)

Section ExtractionMore.
Context `{Bs4Lib} `{Html2Text} `{Urllib} `{Tiktoken} `{Lxml} `{ChatModel}.

(** What a successful extraction went through. *)
Lemma extract_main_content_ok (url : string) (d d' : document) (u : unit) :
  extract_main_content url d = (d', Ok u) ->
  exists full_html l json reply mc md soup links,
    html d = Some full_html /\ node_tree d = Some l
    /\ _trim_node_tree l None = (fst (_trim_node_tree l None), Ok json)
    /\ invoke json = Ok reply
    /\ _get_main_content_html full_html (_clean_result_path (strip reply)) = Ok mc
    /\ html_to_markdown mc = Ok md
    /\ BeautifulSoup mc = Ok soup
    /\ extract_links soup url = Ok links
    /\ d' = set_mc_links links
              (set_mc_markdown md
                 (set_mc_html mc
                    (set_mc_path (_clean_result_path (strip reply))
                       (set_node_tree (fst (_trim_node_tree l None)) d)))).
Proof.
  unfold extract_main_content, try_except, mbind, read, on_node_tree, lift, write.
  destruct (html d) as [full_html|]; simpl; [|discriminate].
  destruct (node_tree d) as [l|]; simpl; [|discriminate].
  destruct (_trim_node_tree l None) as [l' [json|e]] eqn:Etrim; simpl; [|discriminate].
  destruct (invoke json) as [reply|e] eqn:Ereply; simpl; [|discriminate].
  destruct (_get_main_content_html full_html _) as [mc|e] eqn:Emc; simpl; [|discriminate].
  destruct (html_to_markdown mc) as [md|e] eqn:Emd; simpl; [|discriminate].
  destruct (BeautifulSoup mc) as [soup|e] eqn:Esoup; simpl; [|discriminate].
  destruct (extract_links soup url) as [links|e] eqn:Elinks; simpl; [|discriminate].
  intros [= <- _].
  exists full_html, l, json, reply, mc, md, soup, links.
  rewrite Etrim.
  repeat match goal with |- _ /\ _ => split end; try reflexivity; assumption.
Qed.

(** The extraction either fills the four main-content fields or raises
    a [RuntimeError] that wraps the cause; either way it leaves
    ["rawHtml"], ["html"], the markdown and the metadata of the page as
    they were. *)
Theorem extract_main_content_outcome (url : string) (d : document) :
  let d' := fst (extract_main_content url d) in
  match snd (extract_main_content url d) with
  | Ok _ => is_Some (mc_path d') /\ is_Some (mc_html d')
            /\ is_Some (mc_markdown d') /\ is_Some (mc_links d')
  | Raise e => exists cause,
      e = Wrapped "RuntimeError" "Failed to extract main content: " cause
  end
  /\ rawHtml d' = rawHtml d /\ html d' = html d
  /\ full_markdown d' = full_markdown d /\ metadata d' = metadata d.
Proof.
  unfold extract_main_content, try_except, mbind, read, on_node_tree, lift, write.
  destruct (html d) as [full_html|] eqn:Eh; simpl; [|eauto 10].
  destruct (node_tree d) as [l|]; simpl; [|eauto 10].
  destruct (_trim_node_tree l None) as [l' [json|e]]; simpl; [|eauto 10].
  destruct (invoke json) as [reply|e]; simpl; [|eauto 10].
  destruct (_get_main_content_html full_html _) as [mc|e]; simpl; [|eauto 10].
  destruct (html_to_markdown mc) as [md|e]; simpl; [|eauto 10].
  destruct (BeautifulSoup mc) as [soup|e]; simpl; [|eauto 10].
  destruct (extract_links soup url) as [links|e]; simpl; eauto 10.
Qed.

(** A result with content echoes the requested URL and comes from a
    page fetched with status 200; its markdown is the rendering of its
    main-content markup, and its links are those extracted from that
    markup against the URL, without duplicates. *)
Theorem fetch_main_content_content (fetched : ScrapingServiceOutput)
    (url u mc md : string) (links : list string) :
  fetch_main_content fetched url = Content u mc md links ->
  u = url
  /\ truthy (fetched_html fetched) = true
  /\ status_code fetched = Some 200%Z
  /\ html_to_markdown mc = Ok md
  /\ (exists soup, BeautifulSoup mc = Ok soup /\ extract_links soup url = Ok links)
  /\ NoDup links.
Proof.
  unfold fetch_main_content.
  destruct (truthy (fetched_html fetched)); simpl; [|discriminate].
  destruct (bool_decide (status_code fetched = Some 200%Z)) eqn:Es; simpl; [|discriminate].
  apply bool_decide_eq_true in Es.
  destruct (execute_transformers _ _) as [log [cleaned|e]]; [|discriminate].
  destruct (extract_main_content url cleaned) as [main_content [[]|e]] eqn:Ex;
    [|discriminate].
  apply extract_main_content_ok in Ex
    as (full_html & l & json & reply & mc0 & md0 & soup & links0
        & _ & _ & _ & _ & _ & Hmd & Hsoup & Hlinks & ->).
  simpl. intros [= <- <- <- <-].
  repeat split; eauto.
  unfold extract_links in Hlinks.
  destruct (add_links url ∅ (anchor_hrefs soup)) as [set|]; [|discriminate].
  injection Hlinks as <-. apply NoDup_elements.
Qed.

(** When the parser rejects the page the pipeline still returns, but
    without a node tree: the service then reports the missing key
    ["node_tree"], wrapped in a [RuntimeError], not the parser's error. *)
Theorem fetch_main_content_parse_failure (fetched : ScrapingServiceOutput)
    (url raw : string) (e : exn) :
  fetched_html fetched = PyStr raw ->
  raw <> ""%string ->
  status_code fetched = Some 200%Z ->
  BeautifulSoup raw = Raise e ->
  fetch_main_content fetched url
  = error_of url (Wrapped "RuntimeError" "Failed to extract main content: "
                    (KeyError "node_tree")).
Proof.
  intros Hhtml Hne Hstatus Hparse. unfold fetch_main_content.
  rewrite Hhtml, Hstatus. simpl truthy. apply String.eqb_neq in Hne as Hne'.
  rewrite Hne', (bool_decide_eq_true_2 _ eq_refl). simpl.
  rewrite (execute_transformers_outcome (_prepare_meta url) (new_document (PyStr raw))
             raw eq_refl Hne).
  unfold pipeline_outcome. rewrite Hparse. reflexivity.
Qed.

End ExtractionMore.

(** ** The two serialisers of the tree *)

Section SerializersMore.

Lemma node_to_jsonl_records (tags : list string) (n : node) :
  forall p, node_to_jsonl n (Some tags) p = map Json.dumps_data (node_records tags n p).
Proof.
  induction n as [s | s | name attrs contents IH] using node_ind'; intros p.
  - rewrite node_to_jsonl_text. simpl. destruct (strip s =? "")%string; reflexivity.
  - reflexivity.
  - rewrite node_to_jsonl_tag. simpl default. cbn [node_records].
    destruct (existsb (String.eqb (lower name)) tags); [reflexivity|].
    generalize (child_path p name). intros q.
    induction IH as [|c cs Hc _ IHcs]; [reflexivity|].
    cbn [flat_map]. rewrite map_app, Hc, IHcs. reflexivity.
Qed.

Lemma node_records_texts (n : node) :
  forall p,
    map Json.text (node_records non_essential_tags n p)
    = from_option dict_texts [] (node_to_dict n None).
Proof.
  induction n as [s | s | name attrs contents IH] using node_ind'; intros p.
  - simpl. destruct (strip s =? "")%string; reflexivity.
  - reflexivity.
  - cbn [node_records node_to_dict from_option].
    destruct (existsb (String.eqb (lower name)) non_essential_tags); [reflexivity|].
    cbn [from_option dict_texts].
    generalize (child_path p name). intros q.
    match goal with
    | |- _ = match nonempty ?l with _ => _ end =>
        transitivity (flat_map dict_texts l); [|destruct l; reflexivity]
    end.
    induction IH as [|c cs Hc _ IHcs]; [reflexivity|].
    cbn [flat_map]. rewrite map_app, flat_map_app, Hc, IHcs. f_equal.
    destruct (node_to_dict c None); simpl; [rewrite app_nil_r|]; reflexivity.
Qed.

(** Called without a tag list, the two serialisers see the same texts
    in the same order: the [text] fields of the lines of [node_to_jsonl]
    are the texts of the dictionary of [node_to_dict]. *)
Theorem serializers_same_texts (n : node) (p : string) :
  exists records,
    node_to_jsonl n None p = map Json.dumps_data records
    /\ map Json.text records = from_option dict_texts [] (node_to_dict n None).
Proof.
  exists (node_records non_essential_tags n p).
  split; [|apply node_records_texts].
  rewrite node_to_jsonl_default. apply node_to_jsonl_records.
Qed.

(** A line is produced exactly for the text nodes whose stripped
    content is not empty and that no skipped element contains; a tag
    list given by the caller is applied at every depth. *)
Theorem node_to_jsonl_lines (tags : option (list string)) (n : node) (p line : string) :
  In line (node_to_jsonl n tags p) <->
  exists r, emits (default non_essential_tags tags) n p r /\ line = Json.dumps_data r.
Proof.
  destruct tags as [tags|]; simpl default.
  - apply node_to_jsonl_emits.
  - rewrite node_to_jsonl_default. apply node_to_jsonl_emits.
Qed.

Lemma emits_shape (tags : list string) (n : node) (p : string) (r : Json.data) :
  emits tags n p r ->
  Json.text r <> ""%string /\ strip (Json.text r) = Json.text r
  /\ forall c t, Json.path r = String c t -> in_chars "/[document]" c = false.
Proof.
  induction 1 as [s p Hne | name attrs contents p c r Hskip Hc Hemit IH]; [|exact IH].
  simpl. split; [exact Hne|]. split; [apply strip_idem|].
  intros c t Hpath. exact (lstrip_by_head _ _ _ _ Hpath).
Qed.

(** No record has an empty text or white space around its text, and no
    path starts with ['/'] or with any other character of the root
    marker: the paths handed to the oracle are never absolute. *)
Theorem node_to_jsonl_record_shape (tags : option (list string)) (n : node)
    (p line : string) :
  In line (node_to_jsonl n tags p) ->
  exists r, line = Json.dumps_data r
    /\ Json.text r <> ""%string
    /\ strip (Json.text r) = Json.text r
    /\ forall c t, Json.path r = String c t -> in_chars "/[document]" c = false.
Proof.
  intros Hline.
  assert (Hr : exists r, emits (default non_essential_tags tags) n p r
                         /\ line = Json.dumps_data r).
  { destruct tags as [tags|]; simpl default.
    - apply node_to_jsonl_emits, Hline.
    - rewrite node_to_jsonl_default in Hline. apply node_to_jsonl_emits, Hline. }
  destruct Hr as (r & Hr & ->). exists r. split; [reflexivity|].
  exact (emits_shape _ _ _ _ Hr).
Qed.

End SerializersMore.

(** ** The files written for the results *)

Section Artifacts.
Import Main.

Lemma in_chars_app (a b : string) (c : ascii) :
  in_chars (a +:+ b) c = in_chars a c || in_chars b c.
Proof.
  unfold in_chars. induction a as [|x a IH]; [reflexivity|].
  change (list_ascii_of_string (String x a +:+ b))
    with (x :: list_ascii_of_string (a +:+ b)).
  cbn [list_ascii_of_string existsb]. rewrite IH. apply orb_assoc.
Qed.

Lemma in_chars_replace_old (old new : ascii) (s : string) :
  old <> new -> in_chars (replace_char old new s) old = false.
Proof.
  intros Hne. unfold in_chars. induction s as [|x s IH]; [reflexivity|].
  cbn [replace_char list_ascii_of_string existsb]. rewrite IH, orb_false_r.
  destruct (Ascii.eqb_spec x old) as [-> | Hx]; apply Ascii.eqb_neq; congruence.
Qed.

Lemma in_chars_replace_other (old new c : ascii) (s : string) :
  c <> new -> in_chars s c = false -> in_chars (replace_char old new s) c = false.
Proof.
  intros Hne. unfold in_chars. induction s as [|x s IH]; [reflexivity|].
  cbn [replace_char list_ascii_of_string existsb]. intros Hs.
  apply orb_false_iff in Hs as [Hx Hs]. rewrite (IH Hs), orb_false_r.
  destruct (Ascii.eqb x old); [apply Ascii.eqb_neq; exact Hne | exact Hx].
Qed.

Lemma filename_base_clean (url : string) :
  in_chars (filename_base url) "/" = false /\ in_chars (filename_base url) ":" = false.
Proof.
  unfold filename_base. split.
  - apply in_chars_replace_other; [discriminate|].
    apply in_chars_replace_old. discriminate.
  - apply in_chars_replace_old. discriminate.
Qed.

Lemma path_join_output (name : string) :
  in_chars name "/" = false -> path_join output_dir name = ("output/" +:+ name)%string.
Proof.
  intros Hname. unfold path_join.
  destruct (startswith name "/") eqn:Es; [|reflexivity].
  apply startswith_cons in Es as [s' ->]. discriminate.
Qed.

(** Every file written for the results lies directly in the output
    directory: its name is the URL with ['/'] and [':'] replaced, plus
    a suffix, and holds no path separator and no colon.  A result with
    an error writes no file. *)
Theorem process_results_files (results : list outcome) :
  Forall (fun eff =>
            forall file, written_file eff = Some file ->
              exists name, file = ("output/" +:+ name)%string
                           /\ in_chars name "/" = false
                           /\ in_chars name ":" = false)
    (process_results results)
  /\ length (omap written_file (process_results results))
     = 2 * length (List.filter has_content results).
Proof.
  unfold process_results. split.
  - apply List.Forall_forall. intros eff Heff file Hfile.
    apply in_flat_map in Heff as (r & _ & Heff).
    destruct r as [url h md links | url err cause]; simpl in Heff.
    + destruct (filename_base_clean url) as [Hslash Hcolon].
      destruct Heff as [<- | [<- | []]]; injection Hfile as <-;
        (eexists; split; [apply path_join_output|split]);
        rewrite in_chars_app; try rewrite Hslash; try rewrite Hcolon; reflexivity.
    + destruct Heff as [<- | []]. discriminate.
  - induction results as [|r results IH]; [reflexivity|].
    cbn [flat_map]. rewrite omap_app, length_app, IH.
    destruct r; simpl; lia.
Qed.

End Artifacts.

(** ** The further properties on concrete pages *)

Section Instances.
Import Doubles.

Let markup : string := serialize_contents page.
Let fetched : ScrapingServiceOutput :=
  {| link := "https://ex.com/"; status_code := Some 200%Z; fetched_html := PyStr markup |}.

Lemma sanitized_has_no_unsafe_tag_witness :
  named_in (unsafe_tags ++ []) (Tag "p" [] [NavigableString "hi"]) = false.
Proof.
  apply (sanitized_has_no_unsafe_tag scripted [] false exclude_non_main_tags).
  vm_compute. left. reflexivity.
Defined.

Lemma sanitize_exclusion_order_witness :
  remove_unwanted_tree page ["nav"; "p"]%string false []
  = remove_unwanted_tree page ["p"; "nav"; "p"]%string false exclude_non_main_tags.
Proof.
  apply sanitize_exclusion_order. intros tag. simpl. tauto.
Defined.

Lemma simple_selector_local (s name : string) (attrs : list (string * string))
    (cs cs' : list node) :
  simple_selector s (Tag name attrs cs) = simple_selector s (Tag name attrs cs').
Proof.
  destruct s as [|c s]; [reflexivity|].
  destruct c as [[] [] [] [] [] [] [] []]; reflexivity.
Defined.

Lemma sanitized_has_no_catalog_match_witness :
  is_tag article && css_matches "nav" article = false.
Proof.
  apply (@sanitized_has_no_catalog_match bs4_double page [] exclude_non_main_tags
           "nav" article simple_selector_local).
  - vm_compute. tauto.
  - vm_compute. tauto.
Defined.

Lemma execute_transformers_idempotent_witness :
  let m := _prepare_meta "https://ex.com/" in
  let r := execute_transformers m (new_document (PyStr markup)) in
  let d' := match snd r with Ok d' => d' | Raise _ => new_document PyNone end in
  execute_transformers m d' = (fst r, Ok d').
Proof.
  intros m r d'.
  apply (execute_transformers_idempotent m (new_document (PyStr markup)) d' (fst r)).
  vm_compute. reflexivity.
Defined.

Lemma execute_transformers_frame_witness :
  exists log d',
    execute_transformers (_prepare_meta "https://ex.com/") (new_document (PyStr markup))
      = (log, Ok d')
    /\ html d' = Some (PyStr markup) /\ mc_html d' = None.
Proof.
  destruct (execute_transformers_frame (_prepare_meta "https://ex.com/")
              (new_document (PyStr markup)) (PyStr markup) eq_refl)
    as (log & d' & Hrun & _ & Hhtml & _ & Hmc & _).
  exists log, d'. auto.
Defined.

Lemma fetch_main_content_content_witness :
  NoDup ["https://ex.com/x"%string]
  /\ html_to_markdown (serialize article) = Ok (serialize article).
Proof.
  assert (Hrun : fetch_main_content fetched "https://ex.com/"
                 = Content "https://ex.com/" (serialize article) (serialize article)
                     ["https://ex.com/x"%string])
    by (vm_compute; reflexivity).
  destruct (fetch_main_content_content fetched "https://ex.com/" "https://ex.com/"
              (serialize article) (serialize article) ["https://ex.com/x"%string] Hrun)
    as (_ & _ & _ & Hmd & _ & Hnodup).
  split; [exact Hnodup | exact Hmd].
Defined.

Lemma fetch_main_content_parse_failure_witness :
  @fetch_main_content bs4_failing html2text_double urllib_double tiktoken_double
    lxml_double chat_double fetched "https://ex.com/"
  = error_of "https://ex.com/"
      (Wrapped "RuntimeError" "Failed to extract main content: " (KeyError "node_tree")).
Proof.
  apply (@fetch_main_content_parse_failure bs4_failing html2text_double urllib_double
           tiktoken_double lxml_double chat_double fetched "https://ex.com/" markup
           (LibraryError "html.parser")); try reflexivity.
  vm_compute. discriminate.
Defined.

Lemma node_to_jsonl_record_shape_witness :
  exists r,
    Json.dumps_data {| Json.path := "html/body/article/p"; Json.text := "Hello" |}
      = Json.dumps_data r
    /\ Json.text r <> ""%string.
Proof.
  destruct (node_to_jsonl_record_shape None page ""
              (Json.dumps_data {| Json.path := "html/body/article/p";
                                  Json.text := "Hello" |})
              ltac:(vm_compute; left; reflexivity))
    as (r & Hline & Htext & _).
  exists r. auto.
Defined.

End Instances.
